(** * marimo/_messaging/streams.py: console redirection streams

    A shallow embedding of the stream, sink, source, forwarding-loop and
    redirect code of [marimo/_messaging/streams.py], and the properties of
    its specification that can be stated over it.

    Conventions.
    - A Python [str] is a list of Unicode code points; [len], slicing and
      [+] are [length], [slice_to] and [++].
    - A Python call is a computation [Py S A]: from a state [S] it either
      returns ([Ok]), raises ([Raise]) or suspends its thread for ever
      ([Block]: a lock that is held elsewhere, a queue with no item).
    - The model is sequential: it follows ONE thread through a call.  What
      the other threads (the drain worker, other producers) do in the
      meantime is not modelled; locks they hold show up as [Block]. *)

From Stdlib Require Import ZArith NArith Ascii String Lia.
From stdpp Require Import base option list gmap strings.

Local Open Scope Z_scope.

(** ** Python values *)

Definition codepoint := N.
Definition str := list codepoint.

(** A string literal of the source, as code points. *)
Definition lit (s : string) : str :=
  (fun a => N_of_ascii a) <$> list_ascii_of_string s.

(** [len(s)] *)
Definition len {A} (s : list A) : Z := Z.of_nat (length s).

(** [s[:k]] for a Python int [k]: a negative [k] counts from the end. *)
Fixpoint take_upto {A} (k : Z) (s : list A) : list A :=
  match s with
  | [] => []
  | c :: s' => if 0 <? k then c :: take_upto (k - 1) s' else []
  end.

Definition slice_to {A} (k : Z) (s : list A) : list A :=
  if 0 <=? k then take_upto k s else take_upto (len s + k) s.

(** The objects a dynamically typed caller may pass where the source
    annotates [str]. *)
Inductive pyobj :=
| PyStr (s : str)
| PyBytes (b : list N)
| PyInt (z : Z)
| PyNone.

(** [type(x).__name__] *)
Definition type_name (x : pyobj) : str :=
  match x with
  | PyStr _ => lit "str"
  | PyBytes _ => lit "bytes"
  | PyInt _ => lit "int"
  | PyNone => lit "NoneType"
  end.

(** ** Exceptions *)

Inductive exn :=
| AssertionError
| TypeError (msg : str)
| AttributeError
| RuntimeError
| ContextNotInitializedError
| OSError
| BrokenPipeError
| UnicodeDecodeError
| QueueFull
| ValueError
| SystemExit
| KeyboardInterrupt.

Inductive exn_class :=
| cls_BaseException
| cls_Exception
| cls_OSError
| cls_ContextNotInitializedError.

(** [isinstance(e, cls)], following the built-in hierarchy:
    [BrokenPipeError <: ConnectionError <: OSError <: Exception], and
    [SystemExit], [KeyboardInterrupt] derive from [BaseException] only. *)
Definition isinstance (e : exn) (c : exn_class) : bool :=
  match c with
  | cls_BaseException => true
  | cls_Exception =>
      match e with
      | SystemExit | KeyboardInterrupt => false
      | _ => true
      end
  | cls_OSError =>
      match e with
      | OSError | BrokenPipeError => true
      | _ => false
      end
  | cls_ContextNotInitializedError =>
      match e with
      | ContextNotInitializedError => true
      | _ => false
      end
  end.

(** ** Computations *)

Inductive outcome (A : Type) :=
| Ok (a : A)
| Raise (e : exn)
| Block.
Arguments Ok {A} a.
Arguments Raise {A} e.
Arguments Block {A}.

Record Py (S A : Type) := MkPy { run : S -> outcome A * S }.
Arguments MkPy {S A} _.
Arguments run {S A} _ _.

Definition py_ret {S A} (a : A) : Py S A := MkPy (fun s => (Ok a, s)).

Definition py_bind {S A B} (m : Py S A) (k : A -> Py S B) : Py S B :=
  MkPy (fun s =>
    match run m s with
    | (Ok a, s') => run (k a) s'
    | (Raise e, s') => (Raise e, s')
    | (Block, s') => (Block, s')
    end).

#[global] Instance Py_ret {S} : MRet (Py S) := fun A => py_ret.
#[global] Instance Py_bind {S} : MBind (Py S) := fun A B k m => py_bind m k.

Definition raise {S A} (e : exn) : Py S A := MkPy (fun s => (Raise e, s)).
Definition block {S A} : Py S A := MkPy (fun s => (Block, s)).
Definition gets {S A} (f : S -> A) : Py S A := MkPy (fun s => (Ok (f s), s)).
Definition modify {S} (f : S -> S) : Py S unit := MkPy (fun s => (Ok tt, f s)).

(** [try: body  except cls as e: handler e] *)
Definition try_except {S A} (body : Py S A) (c : exn_class)
    (handler : exn -> Py S A) : Py S A :=
  MkPy (fun s =>
    match run body s with
    | (Raise e, s') =>
        if isinstance e c then run (handler e) s' else (Raise e, s')
    | r => r
    end).

(** [try: body  finally: cleanup].  The cleanup runs when the body returns
    and when it raises; an exception of the cleanup replaces the body's. *)
Definition try_finally {S A} (body : Py S A) (cleanup : Py S unit) : Py S A :=
  MkPy (fun s =>
    match run body s with
    | (Block, s') => (Block, s')
    | (r, s') =>
        match run cleanup s' with
        | (Ok _, s'') => (r, s'')
        | (Raise e, s'') => (Raise e, s'')
        | (Block, s'') => (Block, s'')
        end
    end).

(** [assert c], in an interpreter that runs assertions (no [-O]). *)
Definition py_assert {S} (c : bool) : Py S unit :=
  if c then mret tt else raise AssertionError.

(** [for x in xs: body x] *)
Fixpoint py_for {S A} (xs : list A) (body : A -> Py S unit) : Py S unit :=
  match xs with
  | [] => mret tt
  | x :: xs' => body x;; py_for xs' body
  end.

(** The same call made [k] times in a row, and what the calls returned. *)
Fixpoint calls {S A} (k : nat) (m : Py S A) : Py S (list A) :=
  match k with
  | O => mret []
  | S k' => a ← m; rest ← calls k' m; mret (a :: rest)
  end.

(** ** The runtime context and the two byte limits *)

Module Config.

(** The [runtime] section of the configuration.  [MarimoConfig] and
    [RuntimeConfig] are typed dictionaries declared in the configuration
    module, with [runtime], [output_max_bytes] and [std_stream_max_bytes]
    among their keys and [int] the type of the two settings: the
    subscripts [marimo_config["runtime"]["..."]] are field accesses. *)
Record RuntimeConfig := {
  cfg_output_max_bytes : Z;
  cfg_std_stream_max_bytes : Z;
}.

Record MarimoConfig := { runtime : RuntimeConfig }.

Record RuntimeContext := { marimo_config : MarimoConfig }.

(** The process-wide context: [None] until it is initialized. *)
Definition ContextSlot := option RuntimeContext.

(** Modelled from the spec: [marimo._runtime.context.get_context] is
    not part of this file.  It returns the process-wide runtime context,
    and raises [ContextNotInitializedError] when there is none yet. *)
Definition get_context : Py ContextSlot RuntimeContext :=
  MkPy (fun slot =>
    match slot with
    | Some ctx => (Ok ctx, slot)
    | None => (Raise ContextNotInitializedError, slot)
    end).

Definition output_max_bytes : Py ContextSlot Z :=
  try_except
    (ctx ← get_context;
     mret (cfg_output_max_bytes (runtime (marimo_config ctx))))
    cls_ContextNotInitializedError
    (fun _ => mret 5000000).

Definition std_stream_max_bytes : Py ContextSlot Z :=
  try_except
    (ctx ← get_context;
     mret (cfg_std_stream_max_bytes (runtime (marimo_config ctx))))
    cls_ContextNotInitializedError
    (fun _ => mret 1000000).

End Config.

(** Run a computation on a part of the state. *)
Definition zoom {S T A} (proj : S -> T) (upd : T -> S -> S) (m : Py T A)
    : Py S A :=
  MkPy (fun s => let (r, t) := run m (proj s) in (r, upd t s)).

(** ** Messages *)

(** [marimo._messaging.cell_output.CellChannel] *)
Inductive CellChannel :=
| STDOUT | STDERR | STDIN | PDB | OUTPUT | MARIMO_ERROR | MEDIA.

Definition CellId_t := str.
Definition ConsoleMimeType := str.

(** [marimo._messaging.console_output_worker.ConsoleMsg] *)
Record ConsoleMsg := {
  msg_stream : CellChannel;
  msg_cell_id : CellId_t;
  msg_data : str;
  msg_mimetype : ConsoleMimeType;
}.

(** [KernelMessage]: the pair [(op, data)] handed to the pipe; the [data]
    dictionary is only forwarded, it is kept as its items. *)
Definition KernelMessage := (str * list (pyobj * pyobj))%type.

(** ** Pipes *)

(** [PipeProtocol]: anything with a [send]. *)
Class PipeProtocol (P : Type) := {
  send : KernelMessage -> Py P unit;
}.

(** [queue.Queue]: [maxsize <= 0] means unbounded. *)
Record Queue (A : Type) := {
  maxsize : Z;
  items : list A;
}.
Arguments maxsize {A} _.
Arguments items {A} _.

Definition put_nowait {A} (x : A) : Py (Queue A) unit :=
  MkPy (fun q =>
    if (0 <? maxsize q) && (maxsize q <=? len (items q))
    then (Raise QueueFull, q)
    else (Ok tt, {| maxsize := maxsize q; items := items q ++ [x] |})).

(** [QueuePipe] *)
Record QueuePipe := { _queue : Queue KernelMessage }.

Definition QueuePipe_send (obj : KernelMessage) : Py QueuePipe unit :=
  zoom _queue (fun q _ => {| _queue := q |}) (put_nowait obj).

#[global] Instance QueuePipe_PipeProtocol : PipeProtocol QueuePipe :=
  {| send := QueuePipe_send |}.

(** A pipe to try [write] on: a connection to the server process as the
    comment in [write] describes it.  Sending works until the server is
    gone, and then raises [BrokenPipeError]. *)
Record Connection := {
  conn_open : bool;
  conn_sent : list KernelMessage;
}.

Definition Connection_send (obj : KernelMessage) : Py Connection unit :=
  MkPy (fun c =>
    if conn_open c
    then (Ok tt, {| conn_open := true; conn_sent := conn_sent c ++ [obj] |})
    else (Raise BrokenPipeError, c)).

#[global] Instance Connection_PipeProtocol : PipeProtocol Connection :=
  {| send := Connection_send |}.

(** ** The shared stream and the world around it *)

(** [threading.Condition(threading.Lock())]: the lock, and the number of
    [notify] calls made on the condition. *)
Record Condition := {
  cv_locked : bool;
  cv_notifications : nat;
}.

Inductive LockName := the_stream_lock | the_console_msg_cv.

(** What one thread does to the locks, the buffer and the pipe, in order. *)
Inductive Event :=
| EvAcquire (l : LockName)
| EvRelease (l : LockName)
| EvAppend (m : option ConsoleMsg)
| EvNotify
| EvSend (m : KernelMessage).

(** [ThreadSafeStream].  [console_msg_cv] and [console_msg_queue] are
    attributes that [__init__] sets only when [redirect_console] is true;
    the drain thread it starts is another thread and is not modelled. *)
Record ThreadSafeStream (P : Type) := {
  pipe : P;
  cell_id : option CellId_t;
  redirect_console : bool;
  stream_lock : bool;
  console_msg_cv : option Condition;
  console_msg_queue : option (list (option ConsoleMsg));
  input_queue : list str;
}.
Arguments pipe {P} _.
Arguments cell_id {P} _.
Arguments redirect_console {P} _.
Arguments stream_lock {P} _.
Arguments console_msg_cv {P} _.
Arguments console_msg_queue {P} _.
Arguments input_queue {P} _.

(** [ThreadSafeStream.__init__] *)
Definition ThreadSafeStream_init {P} (pipe : P) (input_queue : list str)
    (redirect_console : bool) (cell_id : option CellId_t)
    : ThreadSafeStream P :=
  {| pipe := pipe;
     cell_id := cell_id;
     redirect_console := redirect_console;
     stream_lock := false;
     console_msg_cv :=
       if redirect_console
       then Some {| cv_locked := false; cv_notifications := 0 |}
       else None;
     console_msg_queue := if redirect_console then Some [] else None;
     input_queue := input_queue |}.

(** A record of [LOGGER.debug]. *)
Record LogRecord := {
  log_op : str;
  log_error : exn;
}.

(** The state a call runs in: the runtime context, the shared stream, the
    text written to [sys.stderr], the debug log, and the thread's trace. *)
Record World (P : Type) := {
  context : Config.ContextSlot;
  stream : ThreadSafeStream P;
  sys_stderr : list str;
  LOGGER : list LogRecord;
  trace : list Event;
}.
Arguments context {P} _.
Arguments stream {P} _.
Arguments sys_stderr {P} _.
Arguments LOGGER {P} _.
Arguments trace {P} _.

Section Streams.

Context {P : Type} `{PipeProtocol P}.

(** *** Field updates *)

Definition set_stream (f : ThreadSafeStream P -> ThreadSafeStream P)
    (w : World P) : World P :=
  {| context := context w; stream := f (stream w);
     sys_stderr := sys_stderr w; LOGGER := LOGGER w; trace := trace w |}.

Definition set_context (c : Config.ContextSlot) (w : World P) : World P :=
  {| context := c; stream := stream w;
     sys_stderr := sys_stderr w; LOGGER := LOGGER w; trace := trace w |}.

Definition set_sys_stderr (e : list str) (w : World P) : World P :=
  {| context := context w; stream := stream w;
     sys_stderr := e; LOGGER := LOGGER w; trace := trace w |}.

Definition set_LOGGER (l : list LogRecord) (w : World P) : World P :=
  {| context := context w; stream := stream w;
     sys_stderr := sys_stderr w; LOGGER := l; trace := trace w |}.

Definition emit (e : Event) (w : World P) : World P :=
  {| context := context w; stream := stream w;
     sys_stderr := sys_stderr w; LOGGER := LOGGER w;
     trace := trace w ++ [e] |}.

Definition set_pipe (p : P) (s : ThreadSafeStream P) : ThreadSafeStream P :=
  {| pipe := p; cell_id := cell_id s;
     redirect_console := redirect_console s;
     stream_lock := stream_lock s;
     console_msg_cv := console_msg_cv s;
     console_msg_queue := console_msg_queue s;
     input_queue := input_queue s |}.

Definition set_stream_lock (b : bool) (s : ThreadSafeStream P)
    : ThreadSafeStream P :=
  {| pipe := pipe s; cell_id := cell_id s;
     redirect_console := redirect_console s;
     stream_lock := b;
     console_msg_cv := console_msg_cv s;
     console_msg_queue := console_msg_queue s;
     input_queue := input_queue s |}.

Definition set_console_msg_cv (c : Condition) (s : ThreadSafeStream P)
    : ThreadSafeStream P :=
  {| pipe := pipe s; cell_id := cell_id s;
     redirect_console := redirect_console s;
     stream_lock := stream_lock s;
     console_msg_cv := Some c;
     console_msg_queue := console_msg_queue s;
     input_queue := input_queue s |}.

Definition set_console_msg_queue (q : list (option ConsoleMsg))
    (s : ThreadSafeStream P) : ThreadSafeStream P :=
  {| pipe := pipe s; cell_id := cell_id s;
     redirect_console := redirect_console s;
     stream_lock := stream_lock s;
     console_msg_cv := console_msg_cv s;
     console_msg_queue := Some q;
     input_queue := input_queue s |}.

Definition set_input_queue (q : list str) (s : ThreadSafeStream P)
    : ThreadSafeStream P :=
  {| pipe := pipe s; cell_id := cell_id s;
     redirect_console := redirect_console s;
     stream_lock := stream_lock s;
     console_msg_cv := console_msg_cv s;
     console_msg_queue := console_msg_queue s;
     input_queue := q |}.

(** *** Primitives of the interpreter and the libraries *)

(** Reading an attribute that may not have been set. *)
Definition getattr {A} (f : ThreadSafeStream P -> option A)
    : Py (World P) A :=
  MkPy (fun w =>
    match f (stream w) with
    | Some a => (Ok a, w)
    | None => (Raise AttributeError, w)
    end).

(** [stream_lock.acquire()] / [release()] *)
Definition stream_lock_acquire : Py (World P) unit :=
  MkPy (fun w =>
    if stream_lock (stream w) then (Block, w)
    else (Ok tt, emit (EvAcquire the_stream_lock)
                   (set_stream (set_stream_lock true) w))).

Definition stream_lock_release : Py (World P) unit :=
  modify (fun w => emit (EvRelease the_stream_lock)
                     (set_stream (set_stream_lock false) w)).

(** [with self.stream_lock: body] *)
Definition with_stream_lock {A} (body : Py (World P) A) : Py (World P) A :=
  stream_lock_acquire;; try_finally body stream_lock_release.

(** Entering and leaving [with console_msg_cv:]. *)
Definition cv_acquire : Py (World P) unit :=
  cv ← getattr console_msg_cv;
  if cv_locked cv then block
  else modify (fun w =>
         emit (EvAcquire the_console_msg_cv)
           (set_stream (set_console_msg_cv
              {| cv_locked := true;
                 cv_notifications := cv_notifications cv |}) w)).

Definition cv_release : Py (World P) unit :=
  cv ← getattr console_msg_cv;
  modify (fun w =>
    emit (EvRelease the_console_msg_cv)
      (set_stream (set_console_msg_cv
         {| cv_locked := false;
            cv_notifications := cv_notifications cv |}) w)).

Definition with_console_msg_cv {A} (body : Py (World P) A)
    : Py (World P) A :=
  cv_acquire;; try_finally body cv_release.

(** [console_msg_cv.notify()]: a [RuntimeError] when the calling thread
    has not acquired the condition's lock. *)
Definition cv_notify : Py (World P) unit :=
  cv ← getattr console_msg_cv;
  if cv_locked cv
  then modify (fun w =>
         emit EvNotify
           (set_stream (set_console_msg_cv
              {| cv_locked := true;
                 cv_notifications := S (cv_notifications cv) |}) w))
  else raise RuntimeError.

(** [console_msg_queue.append(m)] *)
Definition console_msg_queue_append (m : option ConsoleMsg)
    : Py (World P) unit :=
  q ← getattr console_msg_queue;
  modify (fun w =>
    emit (EvAppend m) (set_stream (set_console_msg_queue (q ++ [m])) w)).

(** [input_queue.get()]: waits until there is an item. *)
Definition input_queue_get : Py (World P) str :=
  MkPy (fun w =>
    match input_queue (stream w) with
    | [] => (Block, w)
    | r :: rest => (Ok r, set_stream (set_input_queue rest) w)
    end).

(** [sys.stderr.write(s)], on whatever object is installed as
    [sys.stderr]: the call is recorded, and returns. *)
Definition sys_stderr_write (s : str) : Py (World P) unit :=
  modify (fun w => set_sys_stderr (sys_stderr w ++ [s]) w).

(** [LOGGER.debug("Error when writing (op: %s) to pipe: %s", op, e)] *)
Definition LOGGER_debug (op : str) (e : exn) : Py (World P) unit :=
  modify (fun w =>
    set_LOGGER (LOGGER w ++ [{| log_op := op; log_error := e |}]) w).

(** [self.pipe.send(obj)] *)
Definition pipe_send (obj : KernelMessage) : Py (World P) unit :=
  modify (emit (EvSend obj));;
  zoom (fun w => pipe (stream w)) (fun p => set_stream (set_pipe p))
       (send obj).

(** [std_stream_max_bytes()], in the world's runtime context. *)
Definition std_stream_max_bytes : Py (World P) Z :=
  zoom context set_context Config.std_stream_max_bytes.

End Streams.

(** ** The literals of the truncation policy *)

(** ["Warning: marimo truncated a very large console output.\n"] *)
Definition truncation_warning : str :=
  lit "Warning: marimo truncated a very large console output." ++ [10%N].

(** [" ... "] *)
Definition truncation_marker : str := lit " ... ".

(** ** [ThreadSafeStream] *)

Module ThreadSafeStream.
Section Methods.

Context {P : Type} `{PipeProtocol P}.

Definition write (op : str) (data : list (pyobj * pyobj))
    : Py (World P) unit :=
  with_stream_lock
    (try_except (pipe_send (op, data)) cls_OSError
       (fun e => LOGGER_debug op e)).

Definition stop : Py (World P) unit :=
  rc ← gets (fun w => redirect_console (stream w));
  if rc : bool then
    console_msg_queue_append None;;
    with_console_msg_cv cv_notify
  else mret tt.

End Methods.
End ThreadSafeStream.

(** ** [ThreadSafeStdout] *)

Module ThreadSafeStdout.
Section Methods.

Context {P : Type} `{PipeProtocol P}.

(** [sys.getsizeof] on a [str]: what it returns depends on the
    interpreter, so the sinks are modelled for any such function. *)
Variable getsizeof : str -> Z.

Definition _write_with_mimetype (data : pyobj) (mimetype : ConsoleMimeType)
    : Py (World P) Z :=
  cid ← gets (fun w => cell_id (stream w));
  match cid with
  | None => raise AssertionError
  | Some cid =>
      match data with
      | PyStr data =>
          max_bytes ← std_stream_max_bytes;
          data ← (if max_bytes <? getsizeof data then
                    sys_stderr_write truncation_warning;;
                    mret (slice_to max_bytes data ++ truncation_marker)
                  else mret data);
          console_msg_queue_append
            (Some {| msg_stream := STDOUT;
                     msg_cell_id := cid;
                     msg_data := data;
                     msg_mimetype := mimetype |});;
          with_console_msg_cv cv_notify;;
          mret (len data)
      | _ =>
          raise (TypeError
                   (lit "write() argument must be a str, not "
                    ++ type_name data))
      end
  end.

(** [self.write] is inherited from the base class, which is not part of
    this file: [writelines] is modelled for any [write]. *)
Variable write : pyobj -> Py (World P) Z.

Definition writelines (sequence : list pyobj) : Py (World P) unit :=
  py_for sequence (fun line => write line;; mret tt).

End Methods.
End ThreadSafeStdout.

(** ** [ThreadSafeStderr] *)

Module ThreadSafeStderr.
Section Methods.

Context {P : Type} `{PipeProtocol P}.
Variable getsizeof : str -> Z.

Definition _write_with_mimetype (data : pyobj) (mimetype : ConsoleMimeType)
    : Py (World P) Z :=
  cid ← gets (fun w => cell_id (stream w));
  match cid with
  | None => raise AssertionError
  | Some cid =>
      match data with
      | PyStr data =>
          max_bytes ← std_stream_max_bytes;
          let data :=
            if max_bytes <? getsizeof data then
              truncation_warning ++ slice_to max_bytes data
              ++ truncation_marker
            else data in
          with_console_msg_cv
            (console_msg_queue_append
               (Some {| msg_stream := STDERR;
                        msg_cell_id := cid;
                        msg_data := data;
                        msg_mimetype := mimetype |});;
             cv_notify);;
          mret (len data)
      | _ =>
          raise (TypeError
                   (lit "write() argument must be a str, not "
                    ++ type_name data))
      end
  end.

(** [self.write] is inherited from the base class, which is not part of
    this file: [writelines] is modelled for any [write]. *)
Variable write : pyobj -> Py (World P) Z.

Definition writelines (sequence : list pyobj) : Py (World P) unit :=
  py_for sequence (fun line => write line;; mret tt).

End Methods.
End ThreadSafeStderr.

(** ** [ThreadSafeStdin] *)

(** [s.split(sep)] for a separator of one character. *)
Fixpoint split (sep : codepoint) (s : str) : list str :=
  match s with
  | [] => [[]]
  | c :: s' =>
      if (c =? sep)%N then [] :: split sep s'
      else match split sep s' with
           | [] => [[c]]
           | p :: ps => (c :: p) :: ps
           end
  end.

Module ThreadSafeStdin.
Section Methods.

Context {P : Type} `{PipeProtocol P}.
Variable getsizeof : str -> Z.

Definition _readline_with_prompt (prompt : pyobj) : Py (World P) str :=
  cid ← gets (fun w => cell_id (stream w));
  match cid with
  | None => raise AssertionError
  | Some cid =>
      match prompt with
      | PyStr prompt =>
          max_bytes ← std_stream_max_bytes;
          let prompt :=
            if max_bytes <? getsizeof prompt then
              truncation_warning ++ slice_to max_bytes prompt
              ++ truncation_marker
            else prompt in
          with_console_msg_cv
            (console_msg_queue_append
               (Some {| msg_stream := STDIN;
                        msg_cell_id := cid;
                        msg_data := prompt;
                        msg_mimetype := lit "text/plain" |});;
             cv_notify);;
          input_queue_get
      | _ =>
          raise (TypeError
                   (lit "prompt must be a str, not " ++ type_name prompt))
      end
  end.

(** The [size] argument is deleted, unused; the prompt is the empty
    string. *)
Definition readline (size : option Z) : Py (World P) str :=
  _readline_with_prompt (PyStr []).

(** The [hint] argument is deleted, unused. *)
Definition readlines (hint : option Z) : Py (World P) (list str) :=
  r ← _readline_with_prompt (PyStr []);
  mret (split 10%N r).

End Methods.
End ThreadSafeStdin.

(** ** A concrete [sys.getsizeof]

    CPython 3.11 on a 64-bit platform stores a [str] in the compact layout
    of PEP 393: a header that depends on the widest character, then one,
    two or four bytes per character and a terminator. *)
Definition getsizeof_cpython (s : str) : Z :=
  let widest := foldr N.max 0%N s in
  if (widest <? 128)%N then 49 + len s
  else if (widest <? 256)%N then 73 + len s
  else if (widest <? 65536)%N then 74 + 2 * len s
  else 76 + 4 * len s.

(** A stream as [__init__] leaves it, with a cell bound, in a world whose
    context holds the given limit. *)
Definition world0 {P} (p : P) (limit : option Z) (cid : option CellId_t)
    (inputs : list str) : World P :=
  {| context :=
       (fun m => {| Config.marimo_config :=
                      {| Config.runtime :=
                           {| Config.cfg_output_max_bytes := 5000000;
                              Config.cfg_std_stream_max_bytes := m |} |} |})
       <$> limit;
     stream := ThreadSafeStream_init p inputs true cid;
     sys_stderr := [];
     LOGGER := [];
     trace := [] |}.

(** ** What the specification speaks about *)

(** The limit [std_stream_max_bytes()] yields in a context. *)
Definition limit_in (slot : Config.ContextSlot) : Z :=
  match slot with
  | Some ctx =>
      Config.cfg_std_stream_max_bytes
        (Config.runtime (Config.marimo_config ctx))
  | None => 1000000
  end.

(** The stream of a sink that can be written to: a cell is bound, the
    console buffer exists and no other thread holds its lock. *)
Record ready {P} (w : World P) (cid : CellId_t) (n : nat)
    (q : list (option ConsoleMsg)) : Prop := {
  ready_cell : cell_id (stream w) = Some cid;
  ready_cv :
    console_msg_cv (stream w)
    = Some {| cv_locked := false; cv_notifications := n |};
  ready_queue : console_msg_queue (stream w) = Some q;
}.

(** The buffer's lock discipline on a trace: every append to the buffer
    and every notification happens between an acquire and the matching
    release of the condition's lock.  [held] says whether the thread
    holds the lock at the start of the trace. *)
Fixpoint lock_discipline (held : bool) (t : list Event) : bool :=
  match t with
  | [] => true
  | EvAcquire the_console_msg_cv :: t' => lock_discipline true t'
  | EvRelease the_console_msg_cv :: t' => lock_discipline false t'
  | EvAppend _ :: t' => held && lock_discipline held t'
  | EvNotify :: t' => held && lock_discipline held t'
  | _ :: t' => lock_discipline held t'
  end.

(** [sep.join(pieces)] *)
Fixpoint join (sep : codepoint) (pieces : list str) : str :=
  match pieces with
  | [] => []
  | [p] => p
  | p :: ps => p ++ sep :: join sep ps
  end.

(** The data a sink puts in its message, for a limit and a payload. *)
Definition stdout_data (getsizeof : str -> Z) (limit : Z) (data : str) : str :=
  if limit <? getsizeof data
  then slice_to limit data ++ truncation_marker else data.

Definition stderr_data (getsizeof : str -> Z) (limit : Z) (data : str) : str :=
  if limit <? getsizeof data
  then truncation_warning ++ slice_to limit data ++ truncation_marker
  else data.

(** The message the stdout sink appends, and the one the stderr sink and
    the stdin source append (on channel [ch]). *)
Definition stdout_msg {P} (getsizeof : str -> Z) (w : World P)
    (cid : CellId_t) (data : str) (mimetype : ConsoleMimeType)
    : option ConsoleMsg :=
  Some {| msg_stream := STDOUT; msg_cell_id := cid;
          msg_data := stdout_data getsizeof (limit_in (context w)) data;
          msg_mimetype := mimetype |}.

Definition stderr_msg {P} (getsizeof : str -> Z) (w : World P)
    (ch : CellChannel) (cid : CellId_t) (data : str)
    (mimetype : ConsoleMimeType) : option ConsoleMsg :=
  Some {| msg_stream := ch; msg_cell_id := cid;
          msg_data := stderr_data getsizeof (limit_in (context w)) data;
          msg_mimetype := mimetype |}.

(** The world once a message [m] has been appended to a buffer that held
    [q] and the condition has been notified once more: [events] is what
    the call added to the trace, [errs] the text on [sys.stderr] and
    [inputs] the input queue afterwards. *)
Definition enqueued {P} (w : World P) (n : nat) (q : list (option ConsoleMsg))
    (m : option ConsoleMsg) (events : list Event) (errs inputs : list str)
    : World P :=
  {| context := context w;
     stream :=
       {| pipe := pipe (stream w);
          cell_id := cell_id (stream w);
          redirect_console := redirect_console (stream w);
          stream_lock := stream_lock (stream w);
          console_msg_cv :=
            Some {| cv_locked := false; cv_notifications := S n |};
          console_msg_queue := Some (q ++ [m]);
          input_queue := inputs |};
     sys_stderr := errs;
     LOGGER := LOGGER w;
     trace := trace w ++ events |}.

(** The world after [write] has let go of the stream lock: the pipe is
    as [send] left it, and [logged] has been added to the debug log. *)
Definition written {P} (w : World P) (msg : KernelMessage) (p' : P)
    (logged : list LogRecord) : World P :=
  {| context := context w;
     stream :=
       {| pipe := p';
          cell_id := cell_id (stream w);
          redirect_console := redirect_console (stream w);
          stream_lock := false;
          console_msg_cv := console_msg_cv (stream w);
          console_msg_queue := console_msg_queue (stream w);
          input_queue := input_queue (stream w) |};
     sys_stderr := sys_stderr w;
     LOGGER := LOGGER w ++ logged;
     trace :=
       trace w ++ [EvAcquire the_stream_lock; EvSend msg;
                   EvRelease the_stream_lock] |}.

(** The contract violation a call meets, if any, in the order the source
    checks: first the assertion on the bound cell, then the type of the
    argument.  [what] is the head of the [TypeError] message. *)
Definition contract_violation {P} (what : str) (w : World P) (x : pyobj)
    : option exn :=
  match cell_id (stream w), x with
  | None, _ => Some AssertionError
  | Some _, PyStr _ => None
  | Some _, _ => Some (TypeError (what ++ type_name x))
  end.

(** Worlds to try the calls on: a live and a dead connection, a cell. *)
Definition live_conn : Connection := {| conn_open := true; conn_sent := [] |}.
Definition dead_conn : Connection := {| conn_open := false; conn_sent := [] |}.
Definition a_cell : CellId_t := lit "cell-1".
Definition text_plain : ConsoleMimeType := lit "text/plain".
Definition hello_world : str := lit "hello world".
Definition a_b : str := lit "a" ++ [10%N] ++ lit "b".

(** The limit is the default one; it is 10; the connection is dead; no
    cell is bound; a reply waits in the input queue. *)
Definition default_world : World Connection :=
  world0 live_conn None (Some a_cell) [].
Definition ten_world : World Connection :=
  world0 live_conn (Some 10) (Some a_cell) [].
Definition dead_world : World Connection :=
  world0 dead_conn None (Some a_cell) [].
Definition unbound_world : World Connection :=
  world0 live_conn None None [].
Definition reply_world : World Connection :=
  world0 live_conn None (Some a_cell) [a_b].
Definition some_bytes : pyobj := PyBytes [104; 105]%N.

(** ** The forwarding loop *)

Module Forward.

(** [bytes.decode()]: strict UTF-8.  Overlong forms, surrogates, code
    points above U+10FFFF and truncated sequences are errors. *)
Definition is_cont (b : N) : bool := ((128 <=? b) && (b <? 192))%N.

Fixpoint utf8_decode (bs : list N) : option str :=
  match bs with
  | [] => Some []
  | b0 :: r0 =>
      if (b0 <? 128)%N then cons b0 <$> utf8_decode r0
      else if ((194 <=? b0) && (b0 <? 224))%N then
        match r0 with
        | b1 :: r1 =>
            if is_cont b1
            then cons ((b0 - 192) * 64 + (b1 - 128))%N <$> utf8_decode r1
            else None
        | _ => None
        end
      else if ((224 <=? b0) && (b0 <? 240))%N then
        match r0 with
        | b1 :: b2 :: r2 =>
            if is_cont b1 && is_cont b2
               && (negb (b0 =? 224)%N || (160 <=? b1)%N)
               && (negb (b0 =? 237)%N || (b1 <? 160)%N)
            then cons ((b0 - 224) * 4096 + (b1 - 128) * 64 + (b2 - 128))%N
                   <$> utf8_decode r2
            else None
        | _ => None
        end
      else if ((240 <=? b0) && (b0 <? 245))%N then
        match r0 with
        | b1 :: b2 :: b3 :: r3 =>
            if is_cont b1 && is_cont b2 && is_cont b3
               && (negb (b0 =? 240)%N || (144 <=? b1)%N)
               && (negb (b0 =? 244)%N || (b1 <? 144)%N)
            then cons ((b0 - 240) * 262144 + (b1 - 128) * 4096
                       + (b2 - 128) * 64 + (b3 - 128))%N
                   <$> utf8_decode r3
            else None
        | _ => None
        end
      else None
  end.

(** What the forwarding thread meets at one turn of its loop: whether
    the exit flag is set when it is tested, the bytes that have been
    written to the pipe since the last read, and whether [os.read]
    fails (the descriptor was closed under it, say).  A turn stands for
    the moment the read returns: with nothing in the pipe, that is when
    the far end is closed. *)
Record Turn := {
  exit_is_set : bool;
  arrived : list N;
  read_error : option exn;
}.

(** How the function was left.  Python returns [None] in each case; the
    model returns the reason, and [Running] when the turns it was given
    are used up and the loop is at its next read. *)
Inductive Left :=
| ByFlag
| ByEmptyRead
| ByException (e : exn)
| Running.

(** The chunk size of [os.read(fd, 1024)]. *)
Definition chunk_size : nat := 1024.

Section Loop.

(** The bound sink: any state and any [write]. *)
Context {K : Type}.
Variable sink_write : str -> Py K Z.

(** The bytes in the pipe not read yet, and the sink. *)
Record State := {
  in_pipe : list N;
  sink : K;
}.

(** [os.read(fd, n)] at a turn: at most [n] of the bytes in the pipe. *)
Definition os_read (t : Turn) (n : nat) : Py State (list N) :=
  MkPy (fun s =>
    match read_error t with
    | Some e => (Raise e, s)
    | None =>
        let avail := in_pipe s ++ arrived t in
        (Ok (take n avail), {| in_pipe := drop n avail; sink := sink s |})
    end).

(** [data.decode()] *)
Definition decode (data : list N) : Py State str :=
  match utf8_decode data with
  | Some text => mret text
  | None => raise UnicodeDecodeError
  end.

(** [standard_stream.write(text)] *)
Definition standard_stream_write (text : str) : Py State Z :=
  zoom sink (fun k s => {| in_pipe := in_pipe s; sink := k |})
       (sink_write text).

(** The [while] loop, one turn after the other. *)
Fixpoint loop (turns : list Turn) : Py State Left :=
  match turns with
  | [] => mret Running
  | t :: turns' =>
      if exit_is_set t then mret ByFlag
      else
        data ← os_read t chunk_size;
        match data with
        | [] => mret ByEmptyRead
        | _ =>
            text ← decode data;
            standard_stream_write text;;
            loop turns'
        end
  end.

Definition _forward_os_stream (turns : list Turn) : Py State Left :=
  try_except (loop turns) cls_Exception (fun e => mret (ByException e)).

(** What becomes of an exception raised inside the [try]. *)
Definition caught (e : exn) : outcome Left :=
  if isinstance e cls_Exception then Ok (ByException e) else Raise e.

(** The state after the read of a turn. *)
Definition after_read (t : Turn) (s : State) : State :=
  {| in_pipe := drop chunk_size (in_pipe s ++ arrived t); sink := sink s |}.

(** The loop goes through these turns: at each, the flag is not set
    and the read yields a chunk that is not empty, is decoded and is
    written to the sink, which returns. *)
Inductive forwards : list Turn -> State -> State -> Prop :=
| forwards_nil s : forwards [] s s
| forwards_cons t turns s text n k s' :
    exit_is_set t = false ->
    read_error t = None ->
    take chunk_size (in_pipe s ++ arrived t) <> [] ->
    utf8_decode (take chunk_size (in_pipe s ++ arrived t)) = Some text ->
    run (sink_write text) (sink s) = (Ok n, k) ->
    forwards turns
      {| in_pipe := drop chunk_size (in_pipe s ++ arrived t); sink := k |} s' ->
    forwards (t :: turns) s s'.

(** The turn at which the function is left, and how: the flag is set;
    the read returns nothing; the read, the decoding or the sink
    raises; or the sink never returns. *)
Inductive stops : Turn -> State -> outcome Left -> State -> Prop :=
| stops_flag t s :
    exit_is_set t = true ->
    stops t s (Ok ByFlag) s
| stops_read_error t s e :
    exit_is_set t = false ->
    read_error t = Some e ->
    stops t s (caught e) s
| stops_empty_read t s :
    exit_is_set t = false ->
    read_error t = None ->
    take chunk_size (in_pipe s ++ arrived t) = [] ->
    stops t s (Ok ByEmptyRead) (after_read t s)
| stops_decode_error t s :
    exit_is_set t = false ->
    read_error t = None ->
    take chunk_size (in_pipe s ++ arrived t) <> [] ->
    utf8_decode (take chunk_size (in_pipe s ++ arrived t)) = None ->
    stops t s (caught UnicodeDecodeError) (after_read t s)
| stops_sink_raises t s text e k :
    exit_is_set t = false ->
    read_error t = None ->
    take chunk_size (in_pipe s ++ arrived t) <> [] ->
    utf8_decode (take chunk_size (in_pipe s ++ arrived t)) = Some text ->
    run (sink_write text) (sink s) = (Raise e, k) ->
    stops t s (caught e)
      {| in_pipe := drop chunk_size (in_pipe s ++ arrived t); sink := k |}
| stops_sink_blocks t s text k :
    exit_is_set t = false ->
    read_error t = None ->
    take chunk_size (in_pipe s ++ arrived t) <> [] ->
    utf8_decode (take chunk_size (in_pipe s ++ arrived t)) = Some text ->
    run (sink_write text) (sink s) = (Block, k) ->
    stops t s Block
      {| in_pipe := drop chunk_size (in_pipe s ++ arrived t); sink := k |}.

End Loop.
Arguments State : clear implicits.

(** A sink that keeps what it is given, and one that exits. *)
Definition keep_write (text : str) : Py (list str) Z :=
  MkPy (fun kept => (Ok (len text), kept ++ [text])).

Definition exit_write (text : str) : Py (list str) Z := raise SystemExit.

(** 1023 letters, then a character of two bytes: the first read of 1024
    bytes ends in the middle of it. *)
Definition split_character : list N :=
  replicate 1023 97%N ++ [195; 169]%N.

Definition quiet (bs : list N) : Turn :=
  {| exit_is_set := false; arrived := bs; read_error := None |}.

(** The split character arrives, then one more letter; the flag is never
    set.  Nothing has been read or kept yet. *)
Definition two_quiet_turns : list Turn :=
  [quiet split_character; quiet [98]%N].

Definition nothing_yet : State (list str) := {| in_pipe := []; sink := [] |}.

End Forward.

(** ** File descriptors, the watcher and the redirect scope *)

Module Watcher.

(** The process's descriptor table: a descriptor refers to an open
    file, named by a number. *)
Abbreviation FdTable := (gmap nat nat).

(** The lowest descriptor not in use, searched from [n]. *)
Fixpoint lowest_free (fuel : nat) (n : nat) (t : FdTable) : nat :=
  match fuel with
  | O => n
  | S fuel' =>
      match t !! n with
      | None => n
      | Some _ => lowest_free fuel' (S n) t
      end
  end.

(** [Watcher]: [fd_dup] is set by [start] only. *)
Record Watcher := {
  fd : nat;
  read_fd : nat;
  write_fd : nat;
  fd_dup : option nat;
  _should_exit : bool;
}.

(** The descriptor table, the watcher of the standard stream, and the
    stream's [_fileno]. *)
Record World := {
  fds : FdTable;
  _watcher : Watcher;
  _fileno : option nat;
}.

Definition set_fds (t : FdTable) (w : World) : World :=
  {| fds := t; _watcher := _watcher w; _fileno := _fileno w |}.

Definition set_fd_dup (d : nat) (w : World) : World :=
  {| fds := fds w;
     _watcher := {| fd := fd (_watcher w);
                    read_fd := read_fd (_watcher w);
                    write_fd := write_fd (_watcher w);
                    fd_dup := Some d;
                    _should_exit := _should_exit (_watcher w) |};
     _fileno := _fileno w |}.

Definition set_should_exit (w : World) : World :=
  {| fds := fds w;
     _watcher := {| fd := fd (_watcher w);
                    read_fd := read_fd (_watcher w);
                    write_fd := write_fd (_watcher w);
                    fd_dup := fd_dup (_watcher w);
                    _should_exit := true |};
     _fileno := _fileno w |}.

(** [standard_stream._set_fileno(fileno)] *)
Definition _set_fileno (fileno : option nat) : Py World unit :=
  modify (fun w =>
    {| fds := fds w; _watcher := _watcher w; _fileno := fileno |}).

(** [os.dup(fd)]: a new descriptor, the lowest free one, for the same
    open file; [OSError] when [fd] is not open. *)
Definition os_dup (d : nat) : Py World nat :=
  MkPy (fun w =>
    match fds w !! d with
    | None => (Raise OSError, w)
    | Some f =>
        let new := lowest_free (S (size (fds w))) 0 (fds w) in
        (Ok new, set_fds (<[new := f]> (fds w)) w)
    end).

(** [os.dup2(src, dst)]: [dst] now refers to the open file of [src]. *)
Definition os_dup2 (src dst : nat) : Py World unit :=
  MkPy (fun w =>
    match fds w !! src with
    | None => (Raise OSError, w)
    | Some f => (Ok tt, set_fds (<[dst := f]> (fds w)) w)
    end).

(** [os.close(fd)] *)
Definition os_close (d : nat) : Py World unit :=
  MkPy (fun w =>
    match fds w !! d with
    | None => (Raise OSError, w)
    | Some _ => (Ok tt, set_fds (delete d (fds w)) w)
    end).

(** Reading [self.fd_dup]. *)
Definition get_fd_dup : Py World nat :=
  MkPy (fun w =>
    match fd_dup (_watcher w) with
    | Some d => (Ok d, w)
    | None => (Raise AttributeError, w)
    end).

Definition start : Py World unit :=
  self_fd ← gets (fun w => fd (_watcher w));
  d ← os_dup self_fd;
  modify (set_fd_dup d);;
  _set_fileno (Some d);;
  self_write_fd ← gets (fun w => write_fd (_watcher w));
  os_dup2 self_write_fd self_fd.

Definition pause : Py World unit :=
  d ← get_fd_dup;
  self_fd ← gets (fun w => fd (_watcher w));
  os_dup2 d self_fd;;
  d' ← get_fd_dup;
  os_close d';;
  _set_fileno None.

Definition stop : Py World unit :=
  self_write_fd ← gets (fun w => write_fd (_watcher w));
  os_close self_write_fd;;
  self_read_fd ← gets (fun w => read_fd (_watcher w));
  os_close self_read_fd;;
  modify set_should_exit.

(** [os.pipe()]: the two lowest free descriptors, for the read end and
    the write end of a new pipe; [pr] and [pw] name its two open files. *)
Definition os_pipe (pr pw : nat) : Py World (nat * nat) :=
  MkPy (fun w =>
    let r := lowest_free (S (size (fds w))) 0 (fds w) in
    let t1 := <[r := pr]> (fds w) in
    let wr := lowest_free (S (size t1)) 0 t1 in
    (Ok (r, wr), set_fds (<[wr := pw]> t1) w)).

(** [Watcher.__init__], for a stream whose [_original_fd] is
    [original_fd].  The forwarding thread it starts is another thread and
    is not modelled. *)
Definition init (original_fd pr pw : nat) : Py World unit :=
  ends ← os_pipe pr pw;
  modify (fun w =>
    {| fds := fds w;
       _watcher := {| fd := original_fd;
                      read_fd := fst ends;
                      write_fd := snd ends;
                      fd_dup := None;
                      _should_exit := false |};
       _fileno := _fileno w |}).

End Watcher.

(** The methods [ThreadSafeStdout] and [ThreadSafeStderr] define alike on
    the stream object the watcher redirects. *)
Module StandardStreamObject.

(** [fileno()] returns, or raises [io.UnsupportedOperation]. *)
Inductive fileno_result :=
| Fileno (d : nat)
| UnsupportedOperation.

Definition fileno (w : Watcher.World) : fileno_result :=
  match Watcher._fileno w with
  | Some d => Fileno d
  | None => UnsupportedOperation
  end.

(** [stop()] stops the watcher. *)
Definition stop : Py Watcher.World unit := Watcher.stop.

End StandardStreamObject.

(** The object handed to [redirect]: one of the two watched kinds, or any
    other stream. *)
Inductive StandardStream :=
| IsThreadSafeStdout
| IsThreadSafeStderr
| IsOther.

(** [isinstance(s, ThreadSafeStdout) or isinstance(s, ThreadSafeStderr)] *)
Definition is_watched (s : StandardStream) : bool :=
  match s with
  | IsThreadSafeStdout | IsThreadSafeStderr => true
  | IsOther => false
  end.

(** [with redirect(standard_stream): body].  The generator runs up to its
    [yield] on entry, the body runs at the [yield], and an exception of
    the body is raised again inside the generator at that point; so the
    [finally] clause encloses both. *)
Definition redirect (standard_stream : StandardStream)
    (body : Py Watcher.World unit) : Py Watcher.World unit :=
  try_finally
    ((if is_watched standard_stream then Watcher.start else mret tt);;
     body)
    (if is_watched standard_stream then Watcher.pause else mret tt).

(** A descriptor table to try the watcher on: the terminal on 0, 1 and 2
    (open files 100 to 102) and the watcher's pipe on 3 and 4. *)
Definition a_table : Watcher.FdTable :=
  <[0%nat := 100%nat]> (<[1%nat := 101%nat]> (<[2%nat := 102%nat]>
    (<[3%nat := 200%nat]> (<[4%nat := 201%nat]> ∅)))).

Definition a_watched_world : Watcher.World :=
  {| Watcher.fds := a_table;
     Watcher._watcher :=
       {| Watcher.fd := 1; Watcher.read_fd := 3; Watcher.write_fd := 4;
          Watcher.fd_dup := None; Watcher._should_exit := false |};
     Watcher._fileno := None |}.

(** A body that opens a descriptor of its own and then fails. *)
Definition failing_body : Py Watcher.World unit :=
  Watcher.os_dup 0;; raise ValueError.


(** A stream built without console redirection, in a world of its own. *)
Definition plain_world {P} (p : P) (slot : Config.ContextSlot)
    (cid : option CellId_t) (inputs : list str) : World P :=
  {| context := slot;
     stream := ThreadSafeStream_init p inputs false cid;
     sys_stderr := [];
     LOGGER := [];
     trace := [] |}.

(** The buffer's lock is held by another thread. *)
Record contended {P} (w : World P) (cid : CellId_t) (n : nat)
    (q : list (option ConsoleMsg)) : Prop := {
  contended_cell : cell_id (stream w) = Some cid;
  contended_cv :
    console_msg_cv (stream w)
    = Some {| cv_locked := true; cv_notifications := n |};
  contended_queue : console_msg_queue (stream w) = Some q;
}.

(** [write] called on each message in turn. *)
Definition write_each {P} `{PipeProtocol P} (msgs : list KernelMessage)
    : Py (World P) unit :=
  py_for msgs (fun msg => ThreadSafeStream.write (fst msg) (snd msg)).

(** A queue pipe whose queue is full, and a world on it. *)
Definition full_pipe : QueuePipe :=
  {| _queue := {| maxsize := 1; items := [(lit "op", [])] |} |}.

Definition full_world : World QueuePipe :=
  world0 full_pipe None (Some a_cell) [].

(** A turn of the forwarding loop that brings bytes below 128, and at
    least one, with the flag unset and the read working. *)
Definition ascii_turn (t : Forward.Turn) : Prop :=
  Forward.exit_is_set t = false
  /\ Forward.read_error t = None
  /\ Forward.arrived t <> []
  /\ Forall (fun b => (b < 128)%N) (Forward.arrived t).

(** The watcher of [a_watched_world] after its [stop]. *)
Definition a_stopped_world : Watcher.World :=
  snd (run Watcher.stop a_watched_world).

(** A world whose stream descriptor is closed and whose watcher has never
    been started. *)
Definition a_closed_world : Watcher.World :=
  {| Watcher.fds := delete 1%nat a_table;
     Watcher._watcher := Watcher._watcher a_watched_world;
     Watcher._fileno := None |}.

(** The terminal alone: no watcher has been built yet. *)
Definition a_bare_world : Watcher.World :=
  {| Watcher.fds := <[0%nat := 100%nat]> (<[1%nat := 101%nat]>
                      (<[2%nat := 102%nat]> ∅));
     Watcher._watcher :=
       {| Watcher.fd := 0; Watcher.read_fd := 0; Watcher.write_fd := 0;
          Watcher.fd_dup := None; Watcher._should_exit := false |};
     Watcher._fileno := None |}.

(** * Properties *)

(** ** Limits, lengths and slices *)

Lemma std_stream_max_bytes_run slot :
  run Config.std_stream_max_bytes slot = (Ok (limit_in slot), slot).
Proof. destruct slot as [ctx|]; reflexivity. Qed.

Lemma output_max_bytes_run slot :
  run Config.output_max_bytes slot
  = (Ok (match slot with
         | Some ctx =>
             Config.cfg_output_max_bytes
               (Config.runtime (Config.marimo_config ctx))
         | None => 5000000
         end), slot).
Proof. destruct slot as [ctx|]; reflexivity. Qed.

Lemma len_app {A} (a b : list A) : len (a ++ b) = len a + len b.
Proof. unfold len. rewrite length_app. lia. Qed.

Lemma len_cons {A} (c : A) (s : list A) : len (c :: s) = 1 + len s.
Proof. unfold len. simpl. lia. Qed.

Lemma len_nonneg {A} (a : list A) : 0 <= len a.
Proof. unfold len. lia. Qed.

Lemma len_take_upto {A} (k : Z) (s : list A) :
  len (take_upto k s) = Z.max 0 (Z.min k (len s)).
Proof.
  revert k. induction s as [|c s IH]; intros k; simpl.
  - unfold len; simpl. lia.
  - pose proof (len_nonneg s) as Hs.
    destruct (Z.ltb_spec 0 k); rewrite !len_cons, ?IH.
    + lia.
    + unfold len at 1; simpl. lia.
Qed.

Lemma len_slice_to {A} (k : Z) (s : list A) :
  0 <= k -> len (slice_to k s) = Z.min k (len s).
Proof.
  intros Hk. unfold slice_to.
  destruct (Z.leb_spec 0 k) as [_|]; [|lia].
  rewrite len_take_upto. pose proof (len_nonneg s). lia.
Qed.

(** Slices as Python takes them. *)
Example slice_hello_world : slice_to 10 hello_world = lit "hello worl".
Proof. reflexivity. Qed.

Example slice_past_the_end : slice_to 20 hello_world = hello_world.
Proof. reflexivity. Qed.

Example slice_from_the_end : slice_to (-1) hello_world = lit "hello worl".
Proof. reflexivity. Qed.

Example slice_all_from_the_end : slice_to (-20) hello_world = [].
Proof. reflexivity. Qed.

Example getsizeof_hello_world : getsizeof_cpython hello_world = 60.
Proof. reflexivity. Qed.

Lemma len_truncation_marker : len truncation_marker = 5.
Proof. reflexivity. Qed.

Lemma len_truncation_warning : len truncation_warning = 55.
Proof. reflexivity. Qed.

#[global] Opaque truncation_warning truncation_marker.

Lemma fold_left_app_snoc {A} (es l : list A) :
  fold_left (fun acc e => acc ++ [e]) es l = l ++ es.
Proof.
  revert l; induction es as [|e es IH]; intros l; simpl.
  - by rewrite app_nil_r.
  - rewrite IH, <- app_assoc. reflexivity.
Qed.

(** ** What a call does to a ready stream *)

(** Take the world apart, so that a call on it evaluates. *)
Ltac open_world w tr :=
  let ctx := fresh "ctx" in
  destruct w as [ctx [? ? ? ? ? ? ?] ? ? tr]; simpl in *; subst;
  unfold enqueued; cbv zeta; cbn [context stream sys_stderr LOGGER trace
    pipe cell_id redirect_console stream_lock console_msg_cv
    console_msg_queue input_queue];
  rewrite <- ?(fold_left_app_snoc _ tr).

Section SinkRuns.

Context {P : Type} `{PipeProtocol P}.
Variable getsizeof : str -> Z.

Lemma stdout_write_run (w : World P) cid n q data mimetype :
  ready w cid n q ->
  run (ThreadSafeStdout._write_with_mimetype getsizeof (PyStr data) mimetype)
      w
  = (Ok (len (stdout_data getsizeof (limit_in (context w)) data)),
     enqueued w n q (stdout_msg getsizeof w cid data mimetype)
       [EvAppend (stdout_msg getsizeof w cid data mimetype);
        EvAcquire the_console_msg_cv; EvNotify;
        EvRelease the_console_msg_cv]
       (if limit_in (context w) <? getsizeof data
        then sys_stderr w ++ [truncation_warning] else sys_stderr w)
       (input_queue (stream w))).
Proof.
  intros [Hc Hcv Hq]. open_world w tr.
  unfold stdout_msg, stdout_data, limit_in. cbn [context].
  destruct ctx as [ctx|]; cbn;
    match goal with |- context [?a <? getsizeof data] =>
      destruct (a <? getsizeof data) end; reflexivity.
Qed.

Lemma stderr_write_run (w : World P) cid n q data mimetype :
  ready w cid n q ->
  run (ThreadSafeStderr._write_with_mimetype getsizeof (PyStr data) mimetype)
      w
  = (Ok (len (stderr_data getsizeof (limit_in (context w)) data)),
     enqueued w n q (stderr_msg getsizeof w STDERR cid data mimetype)
       [EvAcquire the_console_msg_cv;
        EvAppend (stderr_msg getsizeof w STDERR cid data mimetype);
        EvNotify; EvRelease the_console_msg_cv]
       (sys_stderr w) (input_queue (stream w))).
Proof.
  intros [Hc Hcv Hq]. open_world w tr.
  destruct ctx as [ctx|]; vm_compute; reflexivity.
Qed.

Lemma readline_with_prompt_run (w : World P) cid n q prompt r rest :
  ready w cid n q ->
  input_queue (stream w) = r :: rest ->
  run (ThreadSafeStdin._readline_with_prompt getsizeof (PyStr prompt)) w
  = (Ok r,
     enqueued w n q
       (stderr_msg getsizeof w STDIN cid prompt (lit "text/plain"))
       [EvAcquire the_console_msg_cv;
        EvAppend
          (stderr_msg getsizeof w STDIN cid prompt (lit "text/plain"));
        EvNotify; EvRelease the_console_msg_cv]
       (sys_stderr w) rest).
Proof.
  intros [Hc Hcv Hq] Hin. open_world w tr.
  destruct ctx as [ctx|]; vm_compute; reflexivity.
Qed.

End SinkRuns.

Section StreamRuns.

Context {P : Type} `{PipeProtocol P}.

Lemma stop_run (w : World P) n q :
  redirect_console (stream w) = true ->
  console_msg_cv (stream w)
  = Some {| cv_locked := false; cv_notifications := n |} ->
  console_msg_queue (stream w) = Some q ->
  run ThreadSafeStream.stop w
  = (Ok tt,
     enqueued w n q None
       [EvAppend None; EvAcquire the_console_msg_cv; EvNotify;
        EvRelease the_console_msg_cv]
       (sys_stderr w) (input_queue (stream w))).
Proof.
  intros Hrc Hcv Hq. open_world w tr. vm_compute; reflexivity.
Qed.

Lemma write_run (w : World P) op data :
  stream_lock (stream w) = false ->
  run (ThreadSafeStream.write op data) w
  = match run (send (op, data)) (pipe (stream w)) with
    | (Ok _, p') => (Ok tt, written w (op, data) p' [])
    | (Raise e, p') =>
        if isinstance e cls_OSError
        then (Ok tt, written w (op, data) p'
                       [{| log_op := op; log_error := e |}])
        else (Raise e, written w (op, data) p' [])
    | (Block, p') =>
        (Block,
         emit (EvSend (op, data))
           (emit (EvAcquire the_stream_lock)
              (set_stream (fun s => set_pipe p' (set_stream_lock true s))
                 w)))
    end.
Proof.
  intros Hl.
  destruct w as [ctx [p c rc sl cv cq iq] se lg tr]; simpl in *; subst.
  unfold written; cbn [context stream sys_stderr LOGGER trace
    pipe cell_id redirect_console stream_lock console_msg_cv
    console_msg_queue input_queue].
  rewrite <- (fold_left_app_snoc _ tr).
  unfold ThreadSafeStream.write, with_stream_lock, pipe_send. cbn.
  destruct (run (send (op, data)) p) as [[[]|e|] p']; cbn.
  - rewrite app_nil_r. reflexivity.
  - destruct e; cbn; rewrite ?app_nil_r; reflexivity.
  - reflexivity.
Qed.

(** X1: Whatever [send] does short of never returning, [write] lets go of
    the stream lock; what is not an [OSError] goes on to the caller. *)
Lemma write_releases_the_lock (w : World P) op data :
  stream_lock (stream w) = false ->
  fst (run (send (op, data)) (pipe (stream w))) <> Block ->
  stream_lock (stream (snd (run (ThreadSafeStream.write op data) w))) = false
  /\ fst (run (ThreadSafeStream.write op data) w)
     = match fst (run (send (op, data)) (pipe (stream w))) with
       | Raise e => if isinstance e cls_OSError then Ok tt else Raise e
       | _ => Ok tt
       end.
Proof.
  intros Hl Hnb. rewrite write_run by exact Hl.
  destruct (run (send (op, data)) (pipe (stream w))) as [[[]|e|] p'];
    cbn [fst] in *; [| destruct (isinstance e cls_OSError) |]; try done.
Qed.

End StreamRuns.

(** A full bounded queue is no transport failure: [queue.Full] is not an
    [OSError], and [write] passes it on, the lock released. *)
Example write_on_a_full_queue :
  let w := world0 {| _queue := {| maxsize := 1; items := [(lit "op", [])] |} |}
             None (Some a_cell) [] in
  fst (run (ThreadSafeStream.write (lit "op") []) w) = Raise QueueFull
  /\ stream_lock (stream (snd (run (ThreadSafeStream.write (lit "op") []) w)))
     = false.
Proof. split; reflexivity. Qed.

Section Violations.

Context {P : Type} `{PipeProtocol P}.
Variable getsizeof : str -> Z.

Lemma stdout_violation (w : World P) x mimetype e :
  contract_violation (lit "write() argument must be a str, not ") w x
  = Some e ->
  run (ThreadSafeStdout._write_with_mimetype getsizeof x mimetype) w
  = (Raise e, w).
Proof.
  unfold contract_violation, ThreadSafeStdout._write_with_mimetype.
  cbn. destruct (cell_id (stream w)); [destruct x|]; cbn; congruence.
Qed.

Lemma stderr_violation (w : World P) x mimetype e :
  contract_violation (lit "write() argument must be a str, not ") w x
  = Some e ->
  run (ThreadSafeStderr._write_with_mimetype getsizeof x mimetype) w
  = (Raise e, w).
Proof.
  unfold contract_violation, ThreadSafeStderr._write_with_mimetype.
  cbn. destruct (cell_id (stream w)); [destruct x|]; cbn; congruence.
Qed.

Lemma readline_violation (w : World P) x e :
  contract_violation (lit "prompt must be a str, not ") w x = Some e ->
  run (ThreadSafeStdin._readline_with_prompt getsizeof x) w = (Raise e, w).
Proof.
  unfold contract_violation, ThreadSafeStdin._readline_with_prompt.
  cbn. destruct (cell_id (stream w)); [destruct x|]; cbn; congruence.
Qed.

End Violations.

(** ** Splitting a reply into lines *)

Example split_empty : split 10%N [] = [[]].
Proof. reflexivity. Qed.

Example split_trailing_newline :
  split 10%N (lit "a" ++ [10%N]) = [lit "a"; []].
Proof. reflexivity. Qed.

Lemma split_nonempty sep s : split sep s <> [].
Proof.
  destruct s as [|c s]; simpl; [discriminate|].
  destruct (c =? sep)%N; [discriminate|].
  destruct (split sep s); discriminate.
Qed.

Lemma join_cons sep p ps :
  ps <> [] -> join sep (p :: ps) = p ++ sep :: join sep ps.
Proof. destruct ps; [congruence | reflexivity]. Qed.

Lemma join_split sep s : join sep (split sep s) = s.
Proof.
  induction s as [|c s IH]; [reflexivity|]. simpl.
  destruct (N.eqb_spec c sep) as [->|Hne].
  - rewrite join_cons by apply split_nonempty. simpl. by rewrite IH.
  - pose proof (split_nonempty sep s) as Hs.
    destruct (split sep s) as [|p ps] eqn:E; [congruence|].
    destruct ps as [|p' ps].
    + simpl in *. by rewrite IH.
    + change (join sep ((c :: p) :: p' :: ps))
        with (c :: join sep (p :: p' :: ps)).
      by rewrite IH.
Qed.

Lemma split_pieces_free sep s p : p ∈ split sep s -> sep ∉ p.
Proof.
  revert p. induction s as [|c s IH]; intros p; simpl.
  - intros ->%list_elem_of_singleton. apply not_elem_of_nil.
  - destruct (N.eqb_spec c sep) as [->|Hne].
    + intros [->|Hin]%elem_of_cons; [apply not_elem_of_nil | by apply IH].
    + destruct (split sep s) as [|p0 ps] eqn:E.
      * intros ->%list_elem_of_singleton.
        intros [?|Hin]%elem_of_cons; [congruence|].
        by apply not_elem_of_nil in Hin.
      * intros [->|Hin]%elem_of_cons.
        -- intros [?|Hin]%elem_of_cons; [congruence|].
           apply (IH p0); [apply elem_of_cons; by left | done].
        -- apply IH. apply elem_of_cons. by right.
Qed.

(** ** The byte limits *)

(** C6: [std_stream_max_bytes()] and [output_max_bytes()] never raise:
    each returns the setting of the runtime context when there is one,
    and 1,000,000 and 5,000,000 when the context is not initialized. *)
Theorem C6_max_bytes_never_raise (slot : Config.ContextSlot) :
  run Config.std_stream_max_bytes slot
  = (Ok (match slot with
         | Some ctx =>
             Config.cfg_std_stream_max_bytes
               (Config.runtime (Config.marimo_config ctx))
         | None => 1000000
         end), slot)
  /\ run Config.output_max_bytes slot
     = (Ok (match slot with
            | Some ctx =>
                Config.cfg_output_max_bytes
                  (Config.runtime (Config.marimo_config ctx))
            | None => 5000000
            end), slot).
Proof.
  split; [apply std_stream_max_bytes_run | apply output_max_bytes_run].
Qed.

(** ** Sending on the pipe *)

(** C3: when the stream lock is free and [pipe.send] fails with an
    [OSError], [write] takes the lock, attempts the send, logs the failure
    and returns normally with the lock released; the next [write] is then
    blocked or fails only if its own [send] blocks or fails with something
    else than an [OSError]. *)
Theorem C3_write_swallows_transport_failure {P} `{PipeProtocol P}
    (w : World P) (op : str) (data : list (pyobj * pyobj)) (e : exn) (p' : P) :
  stream_lock (stream w) = false ->
  run (send (op, data)) (pipe (stream w)) = (Raise e, p') ->
  isinstance e cls_OSError = true ->
  exists w',
    run (ThreadSafeStream.write op data) w = (Ok tt, w')
    /\ stream_lock (stream w') = false
    /\ trace w' = trace w ++ [EvAcquire the_stream_lock; EvSend (op, data);
                              EvRelease the_stream_lock]
    /\ LOGGER w' = LOGGER w ++ [{| log_op := op; log_error := e |}]
    /\ forall op2 data2,
         fst (run (ThreadSafeStream.write op2 data2) w')
         = match fst (run (send (op2, data2)) (pipe (stream w'))) with
           | Ok _ => Ok tt
           | Raise e2 => if isinstance e2 cls_OSError then Ok tt else Raise e2
           | Block => Block
           end.
Proof.
  intros Hl Hs He. eexists. split.
  - rewrite write_run by exact Hl. rewrite Hs, He. reflexivity.
  - repeat split. intros op2 data2.
    rewrite write_run by reflexivity.
    destruct (run (send (op2, data2)) _) as [[[]|e2|] ?]; cbn [fst];
      [|destruct (isinstance e2 cls_OSError)|]; reflexivity.
Qed.

(** C3 at work: a [write] on a connection whose far end is gone. *)
Lemma C3_write_on_dead_connection :
  exists w',
    run (ThreadSafeStream.write (lit "cell-op") []) dead_world = (Ok tt, w')
    /\ stream_lock (stream w') = false
    /\ trace w' = trace dead_world ++ [EvAcquire the_stream_lock;
                                       EvSend (lit "cell-op", []);
                                       EvRelease the_stream_lock]
    /\ LOGGER w' = LOGGER dead_world ++ [{| log_op := lit "cell-op";
                                            log_error := BrokenPipeError |}]
    /\ forall op2 data2,
         fst (run (ThreadSafeStream.write op2 data2) w')
         = match fst (run (send (op2, data2)) (pipe (stream w'))) with
           | Ok _ => Ok tt
           | Raise e2 => if isinstance e2 cls_OSError then Ok tt else Raise e2
           | Block => Block
           end.
Proof.
  apply (C3_write_swallows_transport_failure dead_world (lit "cell-op") []
           BrokenPipeError dead_conn); reflexivity.
Defined.

(** ** The lock of the console buffer *)

(** C1: on a stream that is ready, the stderr sink appends to the buffer
    and notifies while it holds the condition's lock, whereas the stdout
    sink and [stop] append BEFORE they take the lock (they notify under
    it): their traces break the lock discipline. *)
Theorem C1_buffer_lock_discipline {P} `{PipeProtocol P}
    (getsizeof : str -> Z) (w : World P) (cid : CellId_t) (n : nat)
    (q : list (option ConsoleMsg)) (data : str) (mimetype : ConsoleMimeType) :
  ready w cid n q ->
  redirect_console (stream w) = true ->
  (exists r w' m,
     run (ThreadSafeStderr._write_with_mimetype getsizeof (PyStr data)
            mimetype) w = (Ok r, w')
     /\ trace w' = trace w ++ [EvAcquire the_console_msg_cv; EvAppend m;
                               EvNotify; EvRelease the_console_msg_cv]
     /\ lock_discipline false
          [EvAcquire the_console_msg_cv; EvAppend m; EvNotify;
           EvRelease the_console_msg_cv] = true)
  /\ (exists r w' m,
        run (ThreadSafeStdout._write_with_mimetype getsizeof (PyStr data)
               mimetype) w = (Ok r, w')
        /\ trace w' = trace w ++ [EvAppend m; EvAcquire the_console_msg_cv;
                                  EvNotify; EvRelease the_console_msg_cv]
        /\ lock_discipline false
             [EvAppend m; EvAcquire the_console_msg_cv; EvNotify;
              EvRelease the_console_msg_cv] = false)
  /\ (exists w',
        run ThreadSafeStream.stop w = (Ok tt, w')
        /\ trace w' = trace w ++ [EvAppend None; EvAcquire the_console_msg_cv;
                                  EvNotify; EvRelease the_console_msg_cv]
        /\ lock_discipline false
             [EvAppend None; EvAcquire the_console_msg_cv; EvNotify;
              EvRelease the_console_msg_cv] = false).
Proof.
  intros Hr Hrc. split; [|split].
  - rewrite (stderr_write_run getsizeof w cid n q data mimetype Hr).
    eexists _, _, _. repeat split.
  - rewrite (stdout_write_run getsizeof w cid n q data mimetype Hr).
    eexists _, _, _. repeat split.
  - destruct Hr as [_ Hcv Hq]. rewrite (stop_run w n q Hrc Hcv Hq).
    eexists. repeat split.
Qed.

Lemma world0_ready {P} (p : P) limit cid inputs :
  ready (world0 p limit (Some cid) inputs) cid 0 [].
Proof. split; reflexivity. Qed.

(** C1 at work: the stdout sink writing ["hello world"]. *)
Lemma C1_stdout_appends_without_the_lock :
  exists r w' m,
    run (ThreadSafeStdout._write_with_mimetype getsizeof_cpython
           (PyStr hello_world) text_plain) default_world = (Ok r, w')
    /\ trace w' = trace default_world
                  ++ [EvAppend m; EvAcquire the_console_msg_cv;
                      EvNotify; EvRelease the_console_msg_cv]
    /\ lock_discipline false
         [EvAppend m; EvAcquire the_console_msg_cv; EvNotify;
          EvRelease the_console_msg_cv] = false.
Proof.
  exact (proj1 (proj2 (C1_buffer_lock_discipline getsizeof_cpython
                         default_world a_cell 0 [] hello_world text_plain
                         (world0_ready live_conn None a_cell [])
                         eq_refl))).
Defined.

(** ** Truncation *)

Lemma stdout_data_over getsizeof limit data :
  limit < getsizeof data ->
  stdout_data getsizeof limit data = slice_to limit data ++ truncation_marker.
Proof.
  intros Hlt. unfold stdout_data.
  destruct (Z.ltb_spec limit (getsizeof data)); [reflexivity | lia].
Qed.

Lemma stderr_data_over getsizeof limit data :
  limit < getsizeof data ->
  stderr_data getsizeof limit data
  = truncation_warning ++ slice_to limit data ++ truncation_marker.
Proof.
  intros Hlt. unfold stderr_data.
  destruct (Z.ltb_spec limit (getsizeof data)); [reflexivity | lia].
Qed.

Lemma len_cut limit (data : str) :
  0 <= limit ->
  len (slice_to limit data ++ truncation_marker)
  = Z.min limit (len data) + 5.
Proof.
  intros Hl. rewrite len_app, len_slice_to, len_truncation_marker by exact Hl.
  reflexivity.
Qed.

(** C2, as stated, fails for the stderr sink: with the limit at 10, the
    payload ["hello world"] is over the limit and the message emitted
    carries 70 characters, more than the limit plus the marker. *)
Lemma C2_stderr_message_exceeds_bound :
  limit_in (context ten_world) = 10
  /\ 10 < getsizeof_cpython hello_world
  /\ exists r w' m,
       run (ThreadSafeStderr._write_with_mimetype getsizeof_cpython
              (PyStr hello_world) text_plain) ten_world = (Ok r, w')
       /\ console_msg_queue (stream w') = Some [Some m]
       /\ ~ len (msg_data m) <= 10 + len truncation_marker.
Proof.
  split; [reflexivity|]. split; [reflexivity|].
  eexists _, _, _. split; [vm_compute; reflexivity|].
  split; [reflexivity|]. vm_compute. intros Habs. apply Habs. reflexivity.
Qed.

(** C2, amended: for a payload whose size is over a limit [M >= 0], the
    stdout sink emits a message of at most [M] characters plus the marker
    and writes the warning once to [sys.stderr]; the stderr sink emits one
    message that is the warning followed by at most [M] characters plus
    the marker, and writes nothing to [sys.stderr]. *)
Theorem C2_truncated_size_bound {P} `{PipeProtocol P}
    (getsizeof : str -> Z) (w : World P) (cid : CellId_t) (n : nat)
    (q : list (option ConsoleMsg)) (data : str) (mimetype : ConsoleMimeType) :
  ready w cid n q ->
  0 <= limit_in (context w) ->
  limit_in (context w) < getsizeof data ->
  (exists r w' m,
     run (ThreadSafeStdout._write_with_mimetype getsizeof (PyStr data)
            mimetype) w = (Ok r, w')
     /\ console_msg_queue (stream w') = Some (q ++ [Some m])
     /\ len (msg_data m) <= limit_in (context w) + len truncation_marker
     /\ sys_stderr w' = sys_stderr w ++ [truncation_warning])
  /\ (exists r w' m rest,
        run (ThreadSafeStderr._write_with_mimetype getsizeof (PyStr data)
               mimetype) w = (Ok r, w')
        /\ console_msg_queue (stream w') = Some (q ++ [Some m])
        /\ msg_data m = truncation_warning ++ rest
        /\ len rest <= limit_in (context w) + len truncation_marker
        /\ len (msg_data m)
           <= len truncation_warning + limit_in (context w)
              + len truncation_marker
        /\ sys_stderr w' = sys_stderr w).
Proof.
  intros Hr Hpos Hover. split.
  - rewrite (stdout_write_run getsizeof w cid n q data mimetype Hr).
    eexists _, _, _. split; [reflexivity|]. split; [reflexivity|].
    cbn [enqueued sys_stderr stdout_msg msg_data].
    rewrite stdout_data_over by exact Hover.
    split.
    + rewrite len_cut, len_truncation_marker by exact Hpos. lia.
    + destruct (Z.ltb_spec (limit_in (context w)) (getsizeof data));
        [reflexivity | lia].
  - rewrite (stderr_write_run getsizeof w cid n q data mimetype Hr).
    eexists _, _, _, _. split; [reflexivity|]. split; [reflexivity|].
    cbn [enqueued sys_stderr stderr_msg msg_data].
    rewrite stderr_data_over by exact Hover.
    split; [reflexivity|].
    rewrite !len_app, len_slice_to, len_truncation_marker,
      len_truncation_warning by exact Hpos.
    repeat split; lia.
Qed.

(** C2, amended, at work: ["hello world"] with the limit at 10. *)
Lemma C2_truncated_size_bound_at_ten :
  (exists r w' m,
     run (ThreadSafeStdout._write_with_mimetype getsizeof_cpython
            (PyStr hello_world) text_plain) ten_world = (Ok r, w')
     /\ console_msg_queue (stream w') = Some ([] ++ [Some m])
     /\ len (msg_data m) <= limit_in (context ten_world) + len truncation_marker
     /\ sys_stderr w' = sys_stderr ten_world ++ [truncation_warning])
  /\ (exists r w' m rest,
        run (ThreadSafeStderr._write_with_mimetype getsizeof_cpython
               (PyStr hello_world) text_plain) ten_world = (Ok r, w')
        /\ console_msg_queue (stream w') = Some ([] ++ [Some m])
        /\ msg_data m = truncation_warning ++ rest
        /\ len rest <= limit_in (context ten_world) + len truncation_marker
        /\ len (msg_data m)
           <= len truncation_warning + limit_in (context ten_world)
              + len truncation_marker
        /\ sys_stderr w' = sys_stderr ten_world).
Proof.
  apply (C2_truncated_size_bound getsizeof_cpython ten_world a_cell 0 [] hello_world
           text_plain (world0_ready live_conn (Some 10) a_cell [])).
  - vm_compute. discriminate.
  - reflexivity.
Defined.

(** C4: for a payload over the limit, the stderr sink emits one message,
    the warning followed by the truncated payload and the marker, and
    leaves [sys.stderr] alone; the stdout sink writes the warning to
    [sys.stderr] and emits a message with the truncated payload and the
    marker only. *)
Theorem C4_two_truncation_policies {P} `{PipeProtocol P}
    (getsizeof : str -> Z) (w : World P) (cid : CellId_t) (n : nat)
    (q : list (option ConsoleMsg)) (data : str) (mimetype : ConsoleMimeType) :
  ready w cid n q ->
  limit_in (context w) < getsizeof data ->
  (exists r w',
     run (ThreadSafeStderr._write_with_mimetype getsizeof (PyStr data)
            mimetype) w = (Ok r, w')
     /\ console_msg_queue (stream w')
        = Some (q ++ [Some {| msg_stream := STDERR; msg_cell_id := cid;
                              msg_data :=
                                truncation_warning
                                ++ slice_to (limit_in (context w)) data
                                ++ truncation_marker;
                              msg_mimetype := mimetype |}])
     /\ sys_stderr w' = sys_stderr w)
  /\ (exists r w',
        run (ThreadSafeStdout._write_with_mimetype getsizeof (PyStr data)
               mimetype) w = (Ok r, w')
        /\ console_msg_queue (stream w')
           = Some (q ++ [Some {| msg_stream := STDOUT; msg_cell_id := cid;
                                 msg_data :=
                                   slice_to (limit_in (context w)) data
                                   ++ truncation_marker;
                                 msg_mimetype := mimetype |}])
        /\ sys_stderr w' = sys_stderr w ++ [truncation_warning]).
Proof.
  intros Hr Hover. split.
  - rewrite (stderr_write_run getsizeof w cid n q data mimetype Hr).
    eexists _, _. split; [reflexivity|].
    unfold stderr_msg. cbn [enqueued sys_stderr stream console_msg_queue].
    rewrite stderr_data_over by exact Hover. split; reflexivity.
  - rewrite (stdout_write_run getsizeof w cid n q data mimetype Hr).
    eexists _, _. split; [reflexivity|].
    unfold stdout_msg. cbn [enqueued sys_stderr stream console_msg_queue].
    rewrite stdout_data_over by exact Hover. split; [reflexivity|].
    destruct (Z.ltb_spec (limit_in (context w)) (getsizeof data));
      [reflexivity | lia].
Qed.

(** C4 at work: ["hello world"] with the limit at 10. *)
Lemma C4_two_truncation_policies_at_ten :
  (exists r w',
     run (ThreadSafeStderr._write_with_mimetype getsizeof_cpython
            (PyStr hello_world) text_plain) ten_world = (Ok r, w')
     /\ console_msg_queue (stream w')
        = Some ([] ++ [Some {| msg_stream := STDERR; msg_cell_id := a_cell;
                               msg_data :=
                                 truncation_warning
                                 ++ slice_to (limit_in (context ten_world))
                                      hello_world
                                 ++ truncation_marker;
                               msg_mimetype := text_plain |}])
     /\ sys_stderr w' = sys_stderr ten_world)
  /\ (exists r w',
        run (ThreadSafeStdout._write_with_mimetype getsizeof_cpython
               (PyStr hello_world) text_plain) ten_world = (Ok r, w')
        /\ console_msg_queue (stream w')
           = Some ([] ++ [Some {| msg_stream := STDOUT;
                                  msg_cell_id := a_cell;
                                  msg_data :=
                                    slice_to (limit_in (context ten_world))
                                      hello_world
                                    ++ truncation_marker;
                                  msg_mimetype := text_plain |}])
        /\ sys_stderr w' = sys_stderr ten_world ++ [truncation_warning]).
Proof.
  apply (C4_two_truncation_policies getsizeof_cpython ten_world a_cell 0 []
           hello_world text_plain (world0_ready live_conn (Some 10) a_cell [])).
  reflexivity.
Defined.

(** C10: a sink's write returns the length of the data of the message it
    emitted.  When the payload is over the limit that is the length of the
    truncated payload plus marker for stdout, and of the warning followed
    by them for stderr; for a payload of fewer than [M + 60] characters
    the stderr sink then returns more than the payload's length. *)
Theorem C10_write_returns_emitted_length {P} `{PipeProtocol P}
    (getsizeof : str -> Z) (w : World P) (cid : CellId_t) (n : nat)
    (q : list (option ConsoleMsg)) (data : str) (mimetype : ConsoleMimeType) :
  ready w cid n q ->
  (exists w' m,
     run (ThreadSafeStdout._write_with_mimetype getsizeof (PyStr data)
            mimetype) w = (Ok (len (msg_data m)), w')
     /\ console_msg_queue (stream w') = Some (q ++ [Some m])
     /\ (getsizeof data <= limit_in (context w) -> msg_data m = data)
     /\ (limit_in (context w) < getsizeof data ->
         msg_data m
         = slice_to (limit_in (context w)) data ++ truncation_marker))
  /\ (exists w' m,
        run (ThreadSafeStderr._write_with_mimetype getsizeof (PyStr data)
               mimetype) w = (Ok (len (msg_data m)), w')
        /\ console_msg_queue (stream w') = Some (q ++ [Some m])
        /\ (getsizeof data <= limit_in (context w) -> msg_data m = data)
        /\ (limit_in (context w) < getsizeof data ->
            msg_data m
            = truncation_warning ++ slice_to (limit_in (context w)) data
              ++ truncation_marker
            /\ (0 <= limit_in (context w) ->
                len data < limit_in (context w) + 60 ->
                len data < len (msg_data m)))).
Proof.
  intros Hr. split.
  - rewrite (stdout_write_run getsizeof w cid n q data mimetype Hr).
    eexists _, {| msg_stream := STDOUT; msg_cell_id := cid;
                  msg_data :=
                    stdout_data getsizeof (limit_in (context w)) data;
                  msg_mimetype := mimetype |}.
    split; [reflexivity|]. split; [reflexivity|].
    cbn [msg_data]. unfold stdout_data.
    destruct (Z.ltb_spec (limit_in (context w)) (getsizeof data));
      split; intros; (reflexivity || lia).
  - rewrite (stderr_write_run getsizeof w cid n q data mimetype Hr).
    eexists _, {| msg_stream := STDERR; msg_cell_id := cid;
                  msg_data :=
                    stderr_data getsizeof (limit_in (context w)) data;
                  msg_mimetype := mimetype |}.
    split; [reflexivity|]. split; [reflexivity|].
    cbn [msg_data]. unfold stderr_data.
    destruct (Z.ltb_spec (limit_in (context w)) (getsizeof data));
      split; intros; try (reflexivity || lia).
    split; [reflexivity|]. intros Hpos Hnear.
    rewrite !len_app, len_slice_to, len_truncation_marker,
      len_truncation_warning by exact Hpos.
    lia.
Qed.

(** C10 at work: ["hello world"] with the limit at 10; the stderr sink
    returns 70 for a payload of 11 characters. *)
Lemma C10_write_returns_emitted_length_at_ten :
  (exists w' m,
     run (ThreadSafeStdout._write_with_mimetype getsizeof_cpython
            (PyStr hello_world) text_plain) ten_world = (Ok (len (msg_data m)), w')
     /\ console_msg_queue (stream w') = Some ([] ++ [Some m])
     /\ (getsizeof_cpython hello_world <= limit_in (context ten_world) ->
         msg_data m = hello_world)
     /\ (limit_in (context ten_world) < getsizeof_cpython hello_world ->
         msg_data m
         = slice_to (limit_in (context ten_world)) hello_world ++ truncation_marker))
  /\ (exists w' m,
        run (ThreadSafeStderr._write_with_mimetype getsizeof_cpython
               (PyStr hello_world) text_plain) ten_world
        = (Ok (len (msg_data m)), w')
        /\ console_msg_queue (stream w') = Some ([] ++ [Some m])
        /\ (getsizeof_cpython hello_world <= limit_in (context ten_world) ->
            msg_data m = hello_world)
        /\ (limit_in (context ten_world) < getsizeof_cpython hello_world ->
            msg_data m
            = truncation_warning ++ slice_to (limit_in (context ten_world)) hello_world
              ++ truncation_marker
            /\ (0 <= limit_in (context ten_world) ->
                len hello_world < limit_in (context ten_world) + 60 ->
                len hello_world < len (msg_data m)))).
Proof.
  exact (C10_write_returns_emitted_length getsizeof_cpython ten_world a_cell 0 []
           hello_world text_plain (world0_ready live_conn (Some 10) a_cell [])).
Defined.

(** ** Contract violations *)

(** C7, as stated, fails when both violations meet: with no cell bound, a
    payload that is not a [str] makes the stdout sink fail its assertion;
    no [TypeError] is raised. *)
Lemma C7_assertion_comes_before_type_check :
  cell_id (stream unbound_world) = None
  /\ run (ThreadSafeStdout._write_with_mimetype getsizeof_cpython (PyInt 42)
            text_plain) unbound_world
     = (Raise AssertionError, unbound_world)
  /\ forall msg w',
       run (ThreadSafeStdout._write_with_mimetype getsizeof_cpython
              (PyInt 42) text_plain) unbound_world
       <> (Raise (TypeError msg), w').
Proof.
  split; [reflexivity|]. split; [reflexivity|]. intros msg w'. discriminate.
Qed.

(** C7, amended: a sink write or a [_readline_with_prompt] with no cell
    bound fails its assertion, whatever its argument; with a cell bound
    and an argument that is not a [str] it raises a [TypeError] naming the
    argument's type.  Either way the exception reaches the caller and
    nothing else has happened: the world is as it was. *)
Theorem C7_contract_violations_reach_the_caller {P} `{PipeProtocol P}
    (getsizeof : str -> Z) (w : World P) (x : pyobj)
    (mimetype : ConsoleMimeType) (e e' : exn) :
  contract_violation (lit "write() argument must be a str, not ") w x
  = Some e ->
  contract_violation (lit "prompt must be a str, not ") w x = Some e' ->
  run (ThreadSafeStdout._write_with_mimetype getsizeof x mimetype) w
  = (Raise e, w)
  /\ run (ThreadSafeStderr._write_with_mimetype getsizeof x mimetype) w
     = (Raise e, w)
  /\ run (ThreadSafeStdin._readline_with_prompt getsizeof x) w = (Raise e', w)
  /\ (cell_id (stream w) = None -> e = AssertionError /\ e' = AssertionError)
  /\ (is_Some (cell_id (stream w)) ->
      e = TypeError (lit "write() argument must be a str, not "
                     ++ type_name x)
      /\ e' = TypeError (lit "prompt must be a str, not " ++ type_name x)
      /\ forall s, x <> PyStr s).
Proof.
  intros He He'.
  split; [by apply stdout_violation|].
  split; [by apply stderr_violation|].
  split; [by apply readline_violation|].
  unfold contract_violation in *.
  destruct (cell_id (stream w)) as [c|].
  - split; [discriminate|]. intros _.
    destruct x; try discriminate; repeat split; congruence.
  - split; [intros _; split; congruence|]. intros [c Hc]. discriminate.
Qed.

(** C7, amended, at work: a [bytes] argument with a cell bound. *)
Lemma C7_bytes_payload_is_a_type_error :
  run (ThreadSafeStdout._write_with_mimetype getsizeof_cpython some_bytes
         text_plain) default_world
  = (Raise (TypeError (lit "write() argument must be a str, not bytes")),
     default_world)
  /\ run (ThreadSafeStderr._write_with_mimetype getsizeof_cpython some_bytes
            text_plain) default_world
     = (Raise (TypeError (lit "write() argument must be a str, not bytes")),
        default_world)
  /\ run (ThreadSafeStdin._readline_with_prompt getsizeof_cpython some_bytes)
       default_world
     = (Raise (TypeError (lit "prompt must be a str, not bytes")),
        default_world)
  /\ (cell_id (stream default_world) = None ->
      TypeError (lit "write() argument must be a str, not bytes")
      = AssertionError
      /\ TypeError (lit "prompt must be a str, not bytes") = AssertionError)
  /\ (is_Some (cell_id (stream default_world)) ->
      TypeError (lit "write() argument must be a str, not bytes")
      = TypeError (lit "write() argument must be a str, not "
                   ++ type_name some_bytes)
      /\ TypeError (lit "prompt must be a str, not bytes")
         = TypeError (lit "prompt must be a str, not " ++ type_name some_bytes)
      /\ forall s, some_bytes <> PyStr s).
Proof.
  apply (C7_contract_violations_reach_the_caller getsizeof_cpython
           default_world some_bytes text_plain
           (TypeError (lit "write() argument must be a str, not bytes"))
           (TypeError (lit "prompt must be a str, not bytes")));
    reflexivity.
Defined.

(** ** Reading a line *)

(** C5: with a reply [R] at the head of the input queue of a ready
    stream, [readline] appends one prompt message for the bound cell (its
    data is the empty prompt, when that is within the limit), takes [R]
    from the queue and returns it as it is; [readlines] does the same and
    returns [R] split at its newlines, pieces that hold no newline and
    give [R] back when joined by newlines.  The reply ["a\nb"] is split
    into ["a"] and ["b"]. *)
Theorem C5_readline_round_trip {P} `{PipeProtocol P}
    (getsizeof : str -> Z) (w : World P) (cid : CellId_t) (n : nat)
    (q : list (option ConsoleMsg)) (R : str) (rest : list str)
    (size hint : option Z) :
  ready w cid n q ->
  input_queue (stream w) = R :: rest ->
  exists w' m,
    run (ThreadSafeStdin.readline getsizeof size) w = (Ok R, w')
    /\ run (ThreadSafeStdin.readlines getsizeof hint) w
       = (Ok (split 10%N R), w')
    /\ console_msg_queue (stream w') = Some (q ++ [Some m])
    /\ msg_stream m = STDIN
    /\ msg_cell_id m = cid
    /\ (getsizeof [] <= limit_in (context w) -> msg_data m = [])
    /\ input_queue (stream w') = rest
    /\ join 10%N (split 10%N R) = R
    /\ (forall p, p ∈ split 10%N R -> 10%N ∉ p)
    /\ split 10%N (lit "a" ++ [10%N] ++ lit "b") = [lit "a"; lit "b"].
Proof.
  intros Hr Hin.
  pose proof (readline_with_prompt_run getsizeof w cid n q [] R rest
                Hr Hin) as Hrun.
  eexists _, _. split; [exact Hrun|].
  split.
  { unfold ThreadSafeStdin.readlines.
    change (run (_ ≫= _) w) with
      (match run (ThreadSafeStdin._readline_with_prompt getsizeof
                    (PyStr [])) w with
       | (Ok a, s') => (Ok (split 10%N a), s')
       | (Raise e, s') => (Raise e, s')
       | (Block, s') => (Block, s')
       end).
    rewrite Hrun. reflexivity. }
  split; [reflexivity|]. split; [reflexivity|]. split; [reflexivity|].
  split.
  { cbn [msg_data]. unfold stderr_data. intros Hle.
    destruct (Z.ltb_spec (limit_in (context w)) (getsizeof []));
      [lia | reflexivity]. }
  split; [reflexivity|].
  split; [apply join_split|].
  split; [intros p; apply split_pieces_free | reflexivity].
Qed.

(** C5 at work: the reply ["a\nb"]. *)
Lemma C5_readlines_a_b :
  exists w' m,
    run (ThreadSafeStdin.readline getsizeof_cpython None) reply_world
    = (Ok a_b, w')
    /\ run (ThreadSafeStdin.readlines getsizeof_cpython None) reply_world
       = (Ok (split 10%N a_b), w')
    /\ console_msg_queue (stream w') = Some ([] ++ [Some m])
    /\ msg_stream m = STDIN
    /\ msg_cell_id m = a_cell
    /\ (getsizeof_cpython [] <= limit_in (context reply_world) ->
        msg_data m = [])
    /\ input_queue (stream w') = []
    /\ join 10%N (split 10%N a_b) = a_b
    /\ (forall p, p ∈ split 10%N a_b -> 10%N ∉ p)
    /\ split 10%N (lit "a" ++ [10%N] ++ lit "b") = [lit "a"; lit "b"].
Proof.
  apply (C5_readline_round_trip getsizeof_cpython reply_world a_cell 0 []
           a_b [] None None (world0_ready live_conn None a_cell _)).
  reflexivity.
Defined.

(** ** The watcher and the redirect scope *)

Lemma covered_size (t : Watcher.FdTable) (n : nat) :
  (forall k, (k < n)%nat -> is_Some (t !! k)) -> (n <= size t)%nat.
Proof.
  intros Hcov.
  pose proof (size_dom (D := gset nat) t) as Hdom.
  pose proof (size_set_seq (C := gset nat) 0 n) as Hseq.
  assert (Hsub : (set_seq 0 n : gset nat) ⊆ dom t).
  { intros k [_ Hk]%elem_of_set_seq. apply elem_of_dom, Hcov. lia. }
  apply subseteq_size in Hsub. lia.
Qed.

Lemma lowest_free_is_free (fuel n : nat) (t : Watcher.FdTable) :
  (forall k, (k < n)%nat -> is_Some (t !! k)) ->
  (size t < n + fuel)%nat ->
  t !! Watcher.lowest_free fuel n t = None.
Proof.
  revert n. induction fuel as [|fuel IH]; intros n Hcov Hsize; simpl.
  - apply covered_size in Hcov. lia.
  - destruct (t !! n) eqn:E; [|exact E].
    apply IH; [|lia].
    intros k Hk. destruct (decide (k = n)) as [->|]; [eauto|].
    apply Hcov. lia.
Qed.

Lemma os_dup_fresh (t : Watcher.FdTable) :
  t !! Watcher.lowest_free (S (size t)) 0 t = None.
Proof. apply lowest_free_is_free; [intros k Hk|]; lia. Qed.

Lemma start_run (w : Watcher.World) (f pw : nat) :
  Watcher.fds w !! Watcher.fd (Watcher._watcher w) = Some f ->
  Watcher.fds w !! Watcher.write_fd (Watcher._watcher w) = Some pw ->
  let d := Watcher.lowest_free (S (size (Watcher.fds w))) 0 (Watcher.fds w) in
  run Watcher.start w
  = (Ok tt,
     {| Watcher.fds :=
          <[Watcher.fd (Watcher._watcher w) := pw]>
            (<[d := f]> (Watcher.fds w));
        Watcher._watcher :=
          {| Watcher.fd := Watcher.fd (Watcher._watcher w);
             Watcher.read_fd := Watcher.read_fd (Watcher._watcher w);
             Watcher.write_fd := Watcher.write_fd (Watcher._watcher w);
             Watcher.fd_dup := Some d;
             Watcher._should_exit :=
               Watcher._should_exit (Watcher._watcher w) |};
        Watcher._fileno := Some d |}).
Proof.
  intros Hfd Hwr d.
  pose proof (os_dup_fresh (Watcher.fds w)) as Hfresh. fold d in Hfresh.
  destruct w as [t [fd0 rfd wfd dup ex] fno]; simpl in *.
  unfold Watcher.start. cbn. rewrite Hfd. cbn. fold d.
  rewrite lookup_insert_ne by congruence. rewrite Hwr. reflexivity.
Qed.

Lemma pause_run (w : Watcher.World) (d f : nat) :
  Watcher.fd_dup (Watcher._watcher w) = Some d ->
  Watcher.fds w !! d = Some f ->
  run Watcher.pause w
  = (Ok tt,
     {| Watcher.fds :=
          delete d (<[Watcher.fd (Watcher._watcher w) := f]> (Watcher.fds w));
        Watcher._watcher := Watcher._watcher w;
        Watcher._fileno := None |}).
Proof.
  intros Hdup Hd.
  destruct w as [t [fd0 rfd wfd dup ex] fno]; simpl in *; subst.
  unfold Watcher.pause. cbn. rewrite Hd. cbn.
  destruct (decide (d = fd0)) as [->|Hne].
  - rewrite lookup_insert_eq. reflexivity.
  - rewrite lookup_insert_ne by congruence. rewrite Hd. reflexivity.
Qed.




(** ** The forwarding loop *)

(** The decoder on a few inputs: characters of one to four bytes, and
    the sequences it must refuse. *)
Example decode_ascii : Forward.utf8_decode [104; 105]%N = Some (lit "hi").
Proof. reflexivity. Qed.

Example decode_two_bytes : Forward.utf8_decode [195; 169]%N = Some [233%N].
Proof. reflexivity. Qed.

Example decode_three_bytes :
  Forward.utf8_decode [226; 130; 172]%N = Some [8364%N].
Proof. reflexivity. Qed.

Example decode_four_bytes :
  Forward.utf8_decode [240; 159; 152; 128]%N = Some [128512%N].
Proof. reflexivity. Qed.

Example decode_refuses :
  Forward.utf8_decode [255]%N = None
  /\ Forward.utf8_decode [195]%N = None
  /\ Forward.utf8_decode [192; 128]%N = None
  /\ Forward.utf8_decode [237; 160; 128]%N = None
  /\ Forward.utf8_decode [244; 144; 128; 128]%N = None
  /\ Forward.utf8_decode [128]%N = None.
Proof. repeat split. Qed.

#[global] Opaque Forward.chunk_size.

Section ForwardRuns.

Import Forward.
Context {K : Type}.
Variable sink_write : str -> Py K Z.

Lemma caught_run (e : exn) (s : State K) :
  (if isinstance e cls_Exception
   then run (mret (ByException e) : Py (State K) Left) s
   else (Raise e, s))
  = (caught e, s).
Proof. unfold caught. destruct (isinstance e cls_Exception); reflexivity. Qed.

(** One turn of the loop, under the [try]. *)
Lemma forward_turn (t : Turn) (turns : list Turn) (s : State K) :
  run (_forward_os_stream sink_write (t :: turns)) s
  = if exit_is_set t then (Ok ByFlag, s)
    else match read_error t with
         | Some e => (caught e, s)
         | None =>
             match take chunk_size (in_pipe s ++ arrived t) with
             | [] => (Ok ByEmptyRead, after_read t s)
             | _ =>
                 match utf8_decode
                         (take chunk_size (in_pipe s ++ arrived t)) with
                 | None => (caught UnicodeDecodeError, after_read t s)
                 | Some text =>
                     match run (sink_write text) (sink s) with
                     | (Ok _, k) =>
                         run (_forward_os_stream sink_write turns)
                           {| in_pipe :=
                                drop chunk_size (in_pipe s ++ arrived t);
                              sink := k |}
                     | (Raise e, k) =>
                         (caught e,
                          {| in_pipe :=
                               drop chunk_size (in_pipe s ++ arrived t);
                             sink := k |})
                     | (Block, k) =>
                         (Block,
                          {| in_pipe :=
                               drop chunk_size (in_pipe s ++ arrived t);
                             sink := k |})
                     end
                 end
             end
         end.
Proof.
  unfold _forward_os_stream, try_except. cbn [run loop].
  destruct (exit_is_set t); [reflexivity|].
  unfold os_read, decode, standard_stream_write, zoom, after_read. cbn.
  destruct (read_error t) as [e|]; cbn; [apply caught_run|].
  destruct (take chunk_size (in_pipe s ++ arrived t)) as [|b bs] eqn:E;
    [reflexivity|].
  destruct (utf8_decode (b :: bs)) as [text|]; cbn; [|reflexivity].
  destruct (run (sink_write text) (sink s)) as [[n|e|] k]; cbn;
    [reflexivity | apply caught_run | reflexivity].
Qed.

Lemma caught_never_an_exception (e e' : exn) :
  caught e = Raise e' -> isinstance e' cls_Exception = false.
Proof.
  unfold caught. destruct (isinstance e cls_Exception) eqn:E; [discriminate|].
  intros [= <-]. exact E.
Qed.

Lemma stops_never_an_exception t s r s' e :
  stops sink_write t s r s' -> r = Raise e ->
  isinstance e cls_Exception = false.
Proof.
  intros Hstop Hr. destruct Hstop; subst;
    try discriminate; eauto using caught_never_an_exception.
Qed.

End ForwardRuns.

(** C8, as stated, fails.  The loop is also left when something raises
    inside it: a first read of 1024 bytes that ends in the middle of a
    character cannot be decoded, and the function returns with the flag
    never set, no read empty, nothing forwarded, and bytes left in the
    pipe.  And what is caught is [Exception]: a sink that raises
    [SystemExit] gets it through to the caller. *)
Lemma C8_decode_error_leaves_the_loop :
  Forall (fun t => Forward.exit_is_set t = false) Forward.two_quiet_turns
  /\ length (take Forward.chunk_size
               (Forward.in_pipe Forward.nothing_yet
                ++ Forward.arrived (Forward.quiet Forward.split_character)))
     = 1024%nat
  /\ run (Forward._forward_os_stream Forward.keep_write
            Forward.two_quiet_turns) Forward.nothing_yet
     = (Ok (Forward.ByException UnicodeDecodeError),
        {| Forward.in_pipe := [169]%N; Forward.sink := [] |})
  /\ run (Forward._forward_os_stream Forward.exit_write
            [Forward.quiet [104; 105]%N]) Forward.nothing_yet
     = (Raise SystemExit, Forward.nothing_yet).
Proof.
  split; [repeat constructor|].
  split; [vm_compute; reflexivity|].
  split; vm_compute; reflexivity.
Qed.

(** C8, amended: whatever the bytes read and whatever the sink does, the
    function either is still in its loop when the turns are used up,
    having read a chunk of at most 1024 bytes, decoded it and written it
    to the sink at every turn; or it is left at the first turn where the
    flag is set, the read returns nothing, or the read, the decoding or
    the write raises (or the write never returns).  An exception that is
    an [Exception] is discarded and the function returns; no such
    exception reaches the caller. *)
Theorem C8_forwarding_loop_is_left_quietly {K : Type}
    (sink_write : str -> Py K Z) (turns : list Forward.Turn)
    (s : Forward.State K) :
  (exists s',
     run (Forward._forward_os_stream sink_write turns) s
     = (Ok Forward.Running, s')
     /\ Forward.forwards sink_write turns s s')
  \/ (exists pre t post s1 r s',
        turns = pre ++ t :: post
        /\ Forward.forwards sink_write pre s s1
        /\ Forward.stops sink_write t s1 r s'
        /\ run (Forward._forward_os_stream sink_write turns) s = (r, s')
        /\ forall e, r = Raise e -> isinstance e cls_Exception = false).
Proof.
  revert s. induction turns as [|t turns IH]; intros s.
  - left. exists s. split; [reflexivity | constructor].
  - rewrite forward_turn.
    assert (Hstop : forall r s',
              Forward.stops sink_write t s r s' ->
              exists pre t0 post s1 r0 s0,
                t :: turns = pre ++ t0 :: post
                /\ Forward.forwards sink_write pre s s1
                /\ Forward.stops sink_write t0 s1 r0 s0
                /\ (r, s') = (r0, s0)
                /\ forall e, r0 = Raise e -> isinstance e cls_Exception = false).
    { intros r s' Hst. exists [], t, turns, s, r, s'.
      repeat split; [constructor | exact Hst |].
      intros e. by apply stops_never_an_exception with (1 := Hst). }
    destruct (Forward.exit_is_set t) eqn:Hflag.
    { right. apply Hstop. by constructor. }
    destruct (Forward.read_error t) as [e|] eqn:Herr.
    { right. apply Hstop. by constructor. }
    destruct (take Forward.chunk_size _) as [|b bs] eqn:Hchunk.
    { right. apply Hstop. by constructor. }
    destruct (Forward.utf8_decode (b :: bs)) as [text|] eqn:Hdec.
    2:{ right. apply Hstop. apply Forward.stops_decode_error; try done.
        - by rewrite Hchunk.
        - by rewrite Hchunk. }
    destruct (run (sink_write text) (Forward.sink s)) as [[n|e|] k] eqn:Hsink.
    2:{ right. apply Hstop.
        apply Forward.stops_sink_raises with (text := text); try done.
        - by rewrite Hchunk.
        - by rewrite Hchunk. }
    2:{ right. apply Hstop.
        apply Forward.stops_sink_blocks with (text := text); try done.
        - by rewrite Hchunk.
        - by rewrite Hchunk. }
    assert (Hfw : forall turns' s1,
              Forward.forwards sink_write turns'
                {| Forward.in_pipe :=
                     drop Forward.chunk_size
                       (Forward.in_pipe s ++ Forward.arrived t);
                   Forward.sink := k |} s1 ->
              Forward.forwards sink_write (t :: turns') s s1).
    { intros turns' s1 Hrest.
      apply Forward.forwards_cons with (text := text) (n := n) (k := k);
        try done.
      - by rewrite Hchunk.
      - by rewrite Hchunk. }
    destruct (IH {| Forward.in_pipe :=
                      drop Forward.chunk_size
                        (Forward.in_pipe s ++ Forward.arrived t);
                    Forward.sink := k |})
      as [(s' & Hrun & Hrest)
         | (pre & t0 & post & s1 & r & s' & -> & Hpre & Hst & Hrun & Hexn)].
    + left. exists s'. split; [exact Hrun | by apply Hfw].
    + right. exists (t :: pre), t0, post, s1, r, s'.
      repeat split; [by apply Hfw | exact Hst | exact Hrun | exact Hexn].
Qed.

(** * More of the file: what else the code shows *)

Lemma run_bind {S A B} (m : Py S A) (k : A -> Py S B) (s : S) :
  run (m ≫= k) s
  = match run m s with
    | (Ok a, s') => run (k a) s'
    | (Raise e, s') => (Raise e, s')
    | (Block, s') => (Block, s')
    end.
Proof. reflexivity. Qed.

Lemma run_for_cons {S A} (x : A) (xs : list A) (body : A -> Py S unit)
    (s : S) :
  run (py_for (x :: xs) body) s
  = match run (body x) s with
    | (Ok _, s') => run (py_for xs body) s'
    | (Raise e, s') => (Raise e, s')
    | (Block, s') => (Block, s')
    end.
Proof. reflexivity. Qed.

Lemma run_for_app {S A} (xs ys : list A) (body : A -> Py S unit) (s : S) :
  run (py_for (xs ++ ys) body) s
  = match run (py_for xs body) s with
    | (Ok _, s') => run (py_for ys body) s'
    | (Raise e, s') => (Raise e, s')
    | (Block, s') => (Block, s')
    end.
Proof.
  revert s. induction xs as [|x xs IH]; intros s; [reflexivity|].
  cbn [app]. rewrite !run_for_cons.
  destruct (run (body x) s) as [[[]|e|] s']; [apply IH | reflexivity ..].
Qed.

(** ** The stream *)

(** The lock is released whatever [send] raises: a full bounded queue. *)
Lemma write_on_a_full_queue_releases_the_lock :
  stream_lock (stream (snd (run (ThreadSafeStream.write (lit "op") [])
                              full_world))) = false
  /\ fst (run (ThreadSafeStream.write (lit "op") []) full_world)
     = match fst (run (send (lit "op", [])) (pipe (stream full_world))) with
       | Raise e => if isinstance e cls_OSError then Ok tt else Raise e
       | _ => Ok tt
       end.
Proof.
  apply (write_releases_the_lock full_world (lit "op") []).
  - reflexivity.
  - vm_compute. discriminate.
Defined.

(** X2: Through a [QueuePipe] on an unbounded queue, a run of [write] calls
    never raises, logs nothing, and puts the messages on the queue in the
    order of the calls, behind what was there. *)
Theorem writes_reach_the_queue_in_order (w : World QueuePipe)
    (msgs : list KernelMessage) :
  stream_lock (stream w) = false ->
  maxsize (_queue (pipe (stream w))) <= 0 ->
  exists w',
    run (write_each msgs) w = (Ok tt, w')
    /\ items (_queue (pipe (stream w')))
       = items (_queue (pipe (stream w))) ++ msgs
    /\ maxsize (_queue (pipe (stream w')))
       = maxsize (_queue (pipe (stream w)))
    /\ LOGGER w' = LOGGER w
    /\ stream_lock (stream w') = false.
Proof.
  revert w. induction msgs as [|[op data] msgs IH]; intros w Hl Hmax.
  - exists w. cbn. rewrite app_nil_r. auto.
  - unfold write_each. rewrite run_for_cons. cbn [fst snd].
    rewrite write_run by exact Hl.
    destruct w as [ctx [[[mx its]] c rc sl cv cq iq] se lg tr];
      cbn in Hl, Hmax |- *.
    destruct (Z.ltb_spec 0 mx) as [|_]; [lia|]. cbn.
    edestruct (IH (written
                     {| context := ctx;
                        stream :=
                          {| pipe := {| _queue := {| maxsize := mx;
                                                     items := its |} |};
                             cell_id := c; redirect_console := rc;
                             stream_lock := sl; console_msg_cv := cv;
                             console_msg_queue := cq; input_queue := iq |};
                        sys_stderr := se; LOGGER := lg; trace := tr |}
                     (op, data)
                     {| _queue := {| maxsize := mx;
                                     items := its ++ [(op, data)] |} |} []))
      as (w' & Hrun & Hits & Hmx & Hlog & Hlock); [reflexivity | exact Hmax |].
    exists w'. split; [exact Hrun|].
    cbn in Hits, Hmx, Hlog. rewrite app_nil_r in Hlog.
    rewrite <- app_assoc in Hits. auto.
Qed.

Lemma writes_reach_an_empty_queue_in_order :
  exists w',
    run (write_each [(lit "a", []); (lit "b", [])])
        (world0 {| _queue := {| maxsize := 0; items := [] |} |} None
           (Some a_cell) []) = (Ok tt, w')
    /\ items (_queue (pipe (stream w')))
       = [] ++ [(lit "a", []); (lit "b", [])]
    /\ maxsize (_queue (pipe (stream w'))) = 0
    /\ LOGGER w' = []
    /\ stream_lock (stream w') = false.
Proof.
  apply (writes_reach_the_queue_in_order
           (world0 {| _queue := {| maxsize := 0; items := [] |} |} None
              (Some a_cell) []) [(lit "a", []); (lit "b", [])]).
  - reflexivity.
  - vm_compute. discriminate.
Defined.

(** X3: [stop] is not idempotent: called twice on a stream with a console
    buffer, it leaves two sentinels at the end of the buffer, behind the
    messages that wait there, and notifies twice. *)
Theorem stop_twice_leaves_two_sentinels {P} `{PipeProtocol P} (w : World P)
    (n : nat) (q : list (option ConsoleMsg)) :
  redirect_console (stream w) = true ->
  console_msg_cv (stream w)
  = Some {| cv_locked := false; cv_notifications := n |} ->
  console_msg_queue (stream w) = Some q ->
  exists w',
    run (ThreadSafeStream.stop;; ThreadSafeStream.stop) w = (Ok tt, w')
    /\ console_msg_queue (stream w') = Some (q ++ [None; None])
    /\ console_msg_cv (stream w')
       = Some {| cv_locked := false; cv_notifications := S (S n) |}.
Proof.
  intros Hrc Hcv Hq. rewrite run_bind, (stop_run w n q Hrc Hcv Hq).
  erewrite (stop_run _ (S n) (q ++ [None])); [|exact Hrc|reflexivity..].
  eexists. split; [reflexivity|]. cbn. rewrite <- app_assoc. auto.
Qed.

Lemma stop_twice_on_a_fresh_stream :
  exists w',
    run (ThreadSafeStream.stop;; ThreadSafeStream.stop) default_world
    = (Ok tt, w')
    /\ console_msg_queue (stream w') = Some ([] ++ [None; None])
    /\ console_msg_cv (stream w')
       = Some {| cv_locked := false; cv_notifications := 2 |}.
Proof.
  apply (stop_twice_leaves_two_sentinels default_world 0 []); reflexivity.
Defined.

(** ** The sinks *)

(** X4: On a stream built without console redirection there is no buffer: a
    sink write with a cell bound and a [str] payload raises
    [AttributeError], the stdout sink after it has written its warning to
    [sys.stderr] when the payload is over the limit; a read does the
    same, and [stop] does nothing at all. *)
Theorem no_console_no_sink {P} `{PipeProtocol P} (getsizeof : str -> Z)
    (p : P) (slot : Config.ContextSlot) (cid : CellId_t) (inputs : list str)
    (data : str) (mimetype : ConsoleMimeType) :
  let w := plain_world p slot (Some cid) inputs in
  (exists w',
     run (ThreadSafeStdout._write_with_mimetype getsizeof (PyStr data)
            mimetype) w = (Raise AttributeError, w')
     /\ stream w' = stream w
     /\ sys_stderr w'
        = if limit_in slot <? getsizeof data then [truncation_warning]
          else [])
  /\ run (ThreadSafeStderr._write_with_mimetype getsizeof (PyStr data)
            mimetype) w = (Raise AttributeError, w)
  /\ run (ThreadSafeStdin._readline_with_prompt getsizeof (PyStr data)) w
     = (Raise AttributeError, w)
  /\ run ThreadSafeStream.stop w = (Ok tt, w).
Proof.
  intros w. subst w. unfold plain_world, limit_in.
  destruct slot as [ctx|]; cbn;
    match goal with |- context [?a <? getsizeof data] =>
      destruct (a <? getsizeof data) end;
    (split; [eexists; split; [reflexivity|split; reflexivity]|]);
    repeat split.
Qed.

(** X5: When another thread holds the buffer's lock, a write to the stderr
    sink waits and has touched nothing, whereas a write to the stdout sink
    waits with its message already in the buffer. *)
Theorem stdout_appends_before_it_waits {P} `{PipeProtocol P}
    (getsizeof : str -> Z) (w : World P) (cid : CellId_t) (n : nat)
    (q : list (option ConsoleMsg)) (data : str) (mimetype : ConsoleMimeType) :
  contended w cid n q ->
  run (ThreadSafeStderr._write_with_mimetype getsizeof (PyStr data) mimetype)
      w = (Block, w)
  /\ exists w',
       run (ThreadSafeStdout._write_with_mimetype getsizeof (PyStr data)
              mimetype) w = (Block, w')
       /\ console_msg_queue (stream w')
          = Some (q ++ [stdout_msg getsizeof w cid data mimetype])
       /\ console_msg_cv (stream w') = console_msg_cv (stream w).
Proof.
  intros [Hc Hcv Hq].
  destruct w as [ctx [p c rc sl cv cq iq] se lg tr]; simpl in *; subst.
  unfold stdout_msg, stdout_data, limit_in; cbn [context].
  split.
  - destruct ctx as [ctx|]; vm_compute; reflexivity.
  - destruct ctx as [ctx|]; cbn;
      match goal with |- context [?a <? getsizeof data] =>
        destruct (a <? getsizeof data) end;
      (eexists; split; [reflexivity|split; reflexivity]).
Qed.

Lemma stdout_appends_before_it_waits_example :
  let w := set_stream (set_console_msg_cv
                         {| cv_locked := true; cv_notifications := 0 |})
             default_world in
  run (ThreadSafeStderr._write_with_mimetype getsizeof_cpython
         (PyStr hello_world) text_plain) w = (Block, w)
  /\ exists w',
       run (ThreadSafeStdout._write_with_mimetype getsizeof_cpython
              (PyStr hello_world) text_plain) w = (Block, w')
       /\ console_msg_queue (stream w')
          = Some ([] ++ [stdout_msg getsizeof_cpython w a_cell hello_world
                           text_plain])
       /\ console_msg_cv (stream w') = console_msg_cv (stream w).
Proof.
  apply (stdout_appends_before_it_waits getsizeof_cpython _ a_cell 0 []
           hello_world text_plain).
  split; reflexivity.
Defined.

Lemma take_upto_prefix {A} (k : Z) (s : list A) :
  exists dropped, s = take_upto k s ++ dropped.
Proof.
  revert k. induction s as [|c s IH]; intros k; simpl.
  - by exists [].
  - destruct (0 <? k).
    + destruct (IH (k - 1)) as [d Hd]. exists d. simpl. by rewrite <- Hd.
    + by exists (c :: s).
Qed.

Lemma slice_to_prefix {A} (k : Z) (s : list A) :
  exists dropped, s = slice_to k s ++ dropped.
Proof. unfold slice_to. destruct (0 <=? k); apply take_upto_prefix. Qed.

(** X6: Truncation keeps the beginning of the payload, whatever the limit
    (a negative one included): what an over-limit write puts in its
    message is a prefix of the payload followed by the marker, behind the
    warning for the stderr sink. *)
Theorem truncation_keeps_a_prefix {P} `{PipeProtocol P}
    (getsizeof : str -> Z) (w : World P) (cid : CellId_t) (n : nat)
    (q : list (option ConsoleMsg)) (data : str) (mimetype : ConsoleMimeType) :
  ready w cid n q ->
  limit_in (context w) < getsizeof data ->
  exists kept dropped,
    data = kept ++ dropped
    /\ (exists r w' m,
          run (ThreadSafeStdout._write_with_mimetype getsizeof (PyStr data)
                 mimetype) w = (Ok r, w')
          /\ console_msg_queue (stream w') = Some (q ++ [Some m])
          /\ msg_data m = kept ++ truncation_marker)
    /\ (exists r w' m,
          run (ThreadSafeStderr._write_with_mimetype getsizeof (PyStr data)
                 mimetype) w = (Ok r, w')
          /\ console_msg_queue (stream w') = Some (q ++ [Some m])
          /\ msg_data m = truncation_warning ++ kept ++ truncation_marker).
Proof.
  intros Hr Hover.
  destruct (slice_to_prefix (limit_in (context w)) data) as [dropped Hd].
  exists (slice_to (limit_in (context w)) data), dropped.
  split; [exact Hd|]. split.
  - rewrite (stdout_write_run getsizeof w cid n q data mimetype Hr).
    eexists _, _, _. split; [reflexivity|]. split; [reflexivity|].
    cbn [msg_data]. by apply stdout_data_over.
  - rewrite (stderr_write_run getsizeof w cid n q data mimetype Hr).
    eexists _, _, _. split; [reflexivity|]. split; [reflexivity|].
    cbn [msg_data]. by apply stderr_data_over.
Qed.

Lemma truncation_keeps_a_prefix_at_ten :
  exists kept dropped,
    hello_world = kept ++ dropped
    /\ (exists r w' m,
          run (ThreadSafeStdout._write_with_mimetype getsizeof_cpython
                 (PyStr hello_world) text_plain) ten_world = (Ok r, w')
          /\ console_msg_queue (stream w') = Some ([] ++ [Some m])
          /\ msg_data m = kept ++ truncation_marker)
    /\ (exists r w' m,
          run (ThreadSafeStderr._write_with_mimetype getsizeof_cpython
                 (PyStr hello_world) text_plain) ten_world = (Ok r, w')
          /\ console_msg_queue (stream w') = Some ([] ++ [Some m])
          /\ msg_data m = truncation_warning ++ kept ++ truncation_marker).
Proof.
  apply (truncation_keeps_a_prefix getsizeof_cpython ten_world a_cell 0 []
           hello_world text_plain (world0_ready live_conn (Some 10) a_cell [])).
  reflexivity.
Defined.

(** *** [writelines] *)

Lemma enqueued_ready {P} (w : World P) cid n q m events errs inputs :
  cell_id (stream w) = Some cid ->
  ready (enqueued w n q m events errs inputs) cid (S n) (q ++ [m]).
Proof. intros Hc. split; [exact Hc | reflexivity..]. Qed.

Section Writelines.

Context {P : Type} `{PipeProtocol P}.
Variable getsizeof : str -> Z.
Variable mimetype : ConsoleMimeType.

Lemma stdout_lines_run (lines : list str) (w : World P) cid n q :
  ready w cid n q ->
  exists w',
    run (ThreadSafeStdout.writelines
           (fun line =>
              ThreadSafeStdout._write_with_mimetype getsizeof line mimetype)
           (PyStr <$> lines)) w = (Ok tt, w')
    /\ ready w' cid (n + length lines)
         (q ++ ((fun d => stdout_msg getsizeof w cid d mimetype) <$> lines))
    /\ context w' = context w
    /\ sys_stderr w'
       = sys_stderr w
         ++ ((fun _ => truncation_warning)
             <$> filter (fun d => limit_in (context w) < getsizeof d) lines).
Proof.
  revert w n q. induction lines as [|d lines IH]; intros w n q Hr.
  - exists w. cbn. rewrite !app_nil_r, Nat.add_0_r. auto.
  - unfold ThreadSafeStdout.writelines. cbn [fmap list_fmap].
    rewrite run_for_cons, run_bind,
      (stdout_write_run getsizeof w cid n q d mimetype Hr).
    cbn [run mret Py_ret py_ret].
    match goal with |- context [run _ ?w1] =>
      destruct (IH w1 (S n) (q ++ [stdout_msg getsizeof w cid d mimetype]))
        as (w' & Hrun & Hr' & Hctx & Herr)
    end.
    { apply enqueued_ready, Hr. }
    exists w'. split; [exact Hrun|].
    cbn [context enqueued sys_stderr] in Hr', Hctx, Herr.
    unfold stdout_msg in Hr' at 2. cbn [context enqueued] in Hr'.
    rewrite <- app_assoc, Nat.add_succ_comm in Hr'.
    split; [exact Hr'|]. split; [exact Hctx|].
    rewrite Herr.
    destruct (Z.ltb_spec (limit_in (context w)) (getsizeof d)).
    + rewrite filter_cons_True by done. cbn. by rewrite <- app_assoc.
    + rewrite filter_cons_False by lia. reflexivity.
Qed.

Lemma stderr_lines_run (lines : list str) (w : World P) cid n q :
  ready w cid n q ->
  exists w',
    run (ThreadSafeStderr.writelines
           (fun line =>
              ThreadSafeStderr._write_with_mimetype getsizeof line mimetype)
           (PyStr <$> lines)) w = (Ok tt, w')
    /\ ready w' cid (n + length lines)
         (q ++ ((fun d => stderr_msg getsizeof w STDERR cid d mimetype)
                <$> lines))
    /\ context w' = context w
    /\ sys_stderr w' = sys_stderr w.
Proof.
  revert w n q. induction lines as [|d lines IH]; intros w n q Hr.
  - exists w. cbn. rewrite !app_nil_r, Nat.add_0_r. auto.
  - unfold ThreadSafeStderr.writelines. cbn [fmap list_fmap].
    rewrite run_for_cons, run_bind,
      (stderr_write_run getsizeof w cid n q d mimetype Hr).
    cbn [run mret Py_ret py_ret].
    match goal with |- context [run _ ?w1] =>
      destruct (IH w1 (S n)
                  (q ++ [stderr_msg getsizeof w STDERR cid d mimetype]))
        as (w' & Hrun & Hr' & Hctx & Herr)
    end.
    { apply enqueued_ready, Hr. }
    exists w'. split; [exact Hrun|].
    cbn [context enqueued sys_stderr] in Hr', Hctx, Herr.
    unfold stderr_msg in Hr' at 2. cbn [context enqueued] in Hr'.
    rewrite <- app_assoc, Nat.add_succ_comm in Hr'.
    auto.
Qed.

End Writelines.

(** X7: [writelines], with [write] a [_write_with_mimetype] of a fixed kind,
    on lines that are all [str]: it returns, and the buffer has gained
    one message per line, in the order of the lines, with one
    notification each; the stdout sink has written one warning to
    [sys.stderr] per line over the limit, the stderr sink none. *)
Theorem writelines_appends_the_lines_in_order {P} `{PipeProtocol P}
    (getsizeof : str -> Z) (mimetype : ConsoleMimeType) (lines : list str)
    (w : World P) (cid : CellId_t) (n : nat) (q : list (option ConsoleMsg)) :
  ready w cid n q ->
  (exists w',
     run (ThreadSafeStdout.writelines
            (fun line =>
               ThreadSafeStdout._write_with_mimetype getsizeof line mimetype)
            (PyStr <$> lines)) w = (Ok tt, w')
     /\ ready w' cid (n + length lines)
          (q ++ ((fun d => stdout_msg getsizeof w cid d mimetype) <$> lines))
     /\ sys_stderr w'
        = sys_stderr w
          ++ ((fun _ => truncation_warning)
              <$> filter (fun d => limit_in (context w) < getsizeof d) lines))
  /\ (exists w',
        run (ThreadSafeStderr.writelines
               (fun line =>
                  ThreadSafeStderr._write_with_mimetype getsizeof line
                    mimetype)
               (PyStr <$> lines)) w = (Ok tt, w')
        /\ ready w' cid (n + length lines)
             (q ++ ((fun d => stderr_msg getsizeof w STDERR cid d mimetype)
                    <$> lines))
        /\ sys_stderr w' = sys_stderr w).
Proof.
  intros Hr. split.
  - destruct (stdout_lines_run getsizeof mimetype lines w cid n q Hr)
      as (w' & Hrun & Hr' & _ & Herr). eauto.
  - destruct (stderr_lines_run getsizeof mimetype lines w cid n q Hr)
      as (w' & Hrun & Hr' & _ & Herr). eauto.
Qed.

Lemma writelines_of_two_lines :
  (exists w',
     run (ThreadSafeStdout.writelines
            (fun line =>
               ThreadSafeStdout._write_with_mimetype getsizeof_cpython line
                 text_plain)
            (PyStr <$> [lit "a"; hello_world])) ten_world = (Ok tt, w')
     /\ ready w' a_cell (0 + length [lit "a"; hello_world])
          ([] ++ ((fun d => stdout_msg getsizeof_cpython ten_world a_cell d
                              text_plain) <$> [lit "a"; hello_world]))
     /\ sys_stderr w'
        = sys_stderr ten_world
          ++ ((fun _ => truncation_warning)
              <$> filter (fun d => limit_in (context ten_world)
                                   < getsizeof_cpython d)
                    [lit "a"; hello_world]))
  /\ (exists w',
        run (ThreadSafeStderr.writelines
               (fun line =>
                  ThreadSafeStderr._write_with_mimetype getsizeof_cpython line
                    text_plain)
               (PyStr <$> [lit "a"; hello_world])) ten_world = (Ok tt, w')
        /\ ready w' a_cell (0 + length [lit "a"; hello_world])
             ([] ++ ((fun d => stderr_msg getsizeof_cpython ten_world STDERR
                                 a_cell d text_plain)
                     <$> [lit "a"; hello_world]))
        /\ sys_stderr w' = sys_stderr ten_world).
Proof.
  apply (writelines_appends_the_lines_in_order getsizeof_cpython text_plain
           [lit "a"; hello_world] ten_world a_cell 0 []).
  apply world0_ready.
Defined.

(** X8: [writelines] stops at the first line that is not a [str]: the
    [TypeError] of that write reaches the caller, the lines before it are
    in the buffer and the lines after it are never written. *)
Theorem writelines_stops_at_a_bad_line {P} `{PipeProtocol P}
    (getsizeof : str -> Z) (mimetype : ConsoleMimeType)
    (before : list str) (bad : pyobj) (after : list pyobj)
    (w : World P) (cid : CellId_t) (n : nat) (q : list (option ConsoleMsg)) :
  ready w cid n q ->
  (forall s, bad <> PyStr s) ->
  exists w',
    run (ThreadSafeStdout.writelines
           (fun line =>
              ThreadSafeStdout._write_with_mimetype getsizeof line mimetype)
           ((PyStr <$> before) ++ bad :: after)) w
    = (Raise (TypeError (lit "write() argument must be a str, not "
                         ++ type_name bad)), w')
    /\ ready w' cid (n + length before)
         (q ++ ((fun d => stdout_msg getsizeof w cid d mimetype) <$> before)).
Proof.
  intros Hr Hbad.
  destruct (stdout_lines_run getsizeof mimetype before w cid n q Hr)
    as (w' & Hrun & Hr' & _ & _).
  exists w'. split; [|exact Hr'].
  unfold ThreadSafeStdout.writelines in *.
  rewrite run_for_app, Hrun, run_for_cons, run_bind.
  rewrite (stdout_violation getsizeof w' bad mimetype
             (TypeError (lit "write() argument must be a str, not "
                         ++ type_name bad))); [reflexivity|].
  unfold contract_violation. destruct Hr' as [-> _ _].
  destruct bad; try reflexivity. by destruct (Hbad s).
Qed.

Lemma writelines_stops_at_bytes :
  exists w',
    run (ThreadSafeStdout.writelines
           (fun line =>
              ThreadSafeStdout._write_with_mimetype getsizeof_cpython line
                text_plain)
           ((PyStr <$> [lit "a"]) ++ some_bytes :: [PyStr (lit "b")]))
        default_world
    = (Raise (TypeError (lit "write() argument must be a str, not "
                         ++ type_name some_bytes)), w')
    /\ ready w' a_cell (0 + length [lit "a"])
         ([] ++ ((fun d => stdout_msg getsizeof_cpython default_world a_cell d
                             text_plain) <$> [lit "a"])).
Proof.
  apply (writelines_stops_at_a_bad_line getsizeof_cpython text_plain
           [lit "a"] some_bytes [PyStr (lit "b")] default_world a_cell 0 []).
  - apply world0_ready.
  - intros s. discriminate.
Defined.

(** ** The source of lines *)

Section ReadRuns.

Context {P : Type} `{PipeProtocol P}.
Variable getsizeof : str -> Z.

Lemma readline_with_prompt_waits (w : World P) cid n q prompt :
  ready w cid n q ->
  input_queue (stream w) = [] ->
  run (ThreadSafeStdin._readline_with_prompt getsizeof (PyStr prompt)) w
  = (Block,
     enqueued w n q
       (stderr_msg getsizeof w STDIN cid prompt (lit "text/plain"))
       [EvAcquire the_console_msg_cv;
        EvAppend (stderr_msg getsizeof w STDIN cid prompt (lit "text/plain"));
        EvNotify; EvRelease the_console_msg_cv]
       (sys_stderr w) []).
Proof.
  intros [Hc Hcv Hq] Hin. open_world w tr.
  destruct ctx as [ctx|]; vm_compute; reflexivity.
Qed.

Lemma readlines_run (w : World P) hint :
  run (ThreadSafeStdin.readlines getsizeof hint) w
  = match run (ThreadSafeStdin.readline getsizeof None) w with
    | (Ok r, w') => (Ok (split 10%N r), w')
    | (Raise e, w') => (Raise e, w')
    | (Block, w') => (Block, w')
    end.
Proof. reflexivity. Qed.

End ReadRuns.

(** X9: A read with no reply waiting sends its prompt all the same: the
    prompt message is appended and notified, and then the call waits. *)
Theorem readline_prompts_before_it_waits {P} `{PipeProtocol P}
    (getsizeof : str -> Z) (w : World P) (cid : CellId_t) (n : nat)
    (q : list (option ConsoleMsg)) (size : option Z) :
  ready w cid n q ->
  input_queue (stream w) = [] ->
  exists w' m,
    run (ThreadSafeStdin.readline getsizeof size) w = (Block, w')
    /\ console_msg_queue (stream w') = Some (q ++ [Some m])
    /\ msg_stream m = STDIN
    /\ console_msg_cv (stream w')
       = Some {| cv_locked := false; cv_notifications := S n |}.
Proof.
  intros Hr Hin. unfold ThreadSafeStdin.readline.
  rewrite (readline_with_prompt_waits getsizeof w cid n q [] Hr Hin).
  eexists _, _. repeat split.
Qed.

Lemma readline_prompts_before_it_waits_example :
  exists w' m,
    run (ThreadSafeStdin.readline getsizeof_cpython None) default_world
    = (Block, w')
    /\ console_msg_queue (stream w') = Some ([] ++ [Some m])
    /\ msg_stream m = STDIN
    /\ console_msg_cv (stream w')
       = Some {| cv_locked := false; cv_notifications := 1 |}.
Proof.
  apply (readline_prompts_before_it_waits getsizeof_cpython default_world
           a_cell 0 [] None (world0_ready live_conn None a_cell [])).
  reflexivity.
Defined.

(** X10: Replies are handed out in the order they wait: as many [readline]
    calls as there are replies at the head of the input queue return
    those replies in order, each behind a prompt message of its own, and
    leave the rest of the queue. *)
Theorem readline_hands_out_replies_in_order {P} `{PipeProtocol P}
    (getsizeof : str -> Z) (size : option Z) (replies rest : list str)
    (w : World P) (cid : CellId_t) (n : nat) (q : list (option ConsoleMsg)) :
  ready w cid n q ->
  input_queue (stream w) = replies ++ rest ->
  exists w',
    run (calls (length replies) (ThreadSafeStdin.readline getsizeof size)) w
    = (Ok replies, w')
    /\ input_queue (stream w') = rest
    /\ ready w' cid (n + length replies)
         (q ++ replicate (length replies)
                 (stderr_msg getsizeof w STDIN cid [] (lit "text/plain"))).
Proof.
  revert w n q. induction replies as [|r replies IH]; intros w n q Hr Hin.
  - exists w. cbn. rewrite app_nil_r, Nat.add_0_r. auto.
  - cbn [length calls]. rewrite run_bind. unfold ThreadSafeStdin.readline at 1.
    rewrite (readline_with_prompt_run getsizeof w cid n q [] r
               (replies ++ rest) Hr Hin).
    rewrite run_bind.
    match goal with |- context [run (calls _ _) ?w1] =>
      destruct (IH w1 (S n)
                  (q ++ [stderr_msg getsizeof w STDIN cid []
                           (lit "text/plain")]))
        as (w' & Hrun & Hin' & Hr')
    end.
    { apply enqueued_ready, Hr. }
    { reflexivity. }
    rewrite Hrun. exists w'. split; [reflexivity|]. split; [exact Hin'|].
    unfold stderr_msg in Hr' at 2. cbn [context enqueued] in Hr'.
    rewrite <- app_assoc, Nat.add_succ_comm in Hr'. exact Hr'.
Qed.

Lemma readline_hands_out_two_replies :
  exists w',
    run (calls (length [lit "yes"; lit "no"])
           (ThreadSafeStdin.readline getsizeof_cpython None))
        (world0 live_conn None (Some a_cell) [lit "yes"; lit "no"; lit "x"])
    = (Ok [lit "yes"; lit "no"], w')
    /\ input_queue (stream w') = [lit "x"]
    /\ ready w' a_cell (0 + length [lit "yes"; lit "no"])
         ([] ++ replicate (length [lit "yes"; lit "no"])
                  (stderr_msg getsizeof_cpython
                     (world0 live_conn None (Some a_cell)
                        [lit "yes"; lit "no"; lit "x"])
                     STDIN a_cell [] (lit "text/plain"))).
Proof.
  apply (readline_hands_out_replies_in_order getsizeof_cpython None
           [lit "yes"; lit "no"] [lit "x"]
           (world0 live_conn None (Some a_cell) [lit "yes"; lit "no"; lit "x"])
           a_cell 0 []).
  - apply world0_ready.
  - reflexivity.
Defined.

(** X11: A prompt over the limit is treated as the stderr sink treats its
    payload: the prompt message, on the stdin channel and of kind
    [text/plain], carries the warning, the prompt cut at the limit and the
    marker; nothing goes to [sys.stderr], and the reply is returned. *)
Theorem long_prompt_is_cut_like_stderr {P} `{PipeProtocol P}
    (getsizeof : str -> Z) (w : World P) (cid : CellId_t) (n : nat)
    (q : list (option ConsoleMsg)) (prompt R : str) (rest : list str) :
  ready w cid n q ->
  input_queue (stream w) = R :: rest ->
  limit_in (context w) < getsizeof prompt ->
  exists w',
    run (ThreadSafeStdin._readline_with_prompt getsizeof (PyStr prompt)) w
    = (Ok R, w')
    /\ console_msg_queue (stream w')
       = Some (q ++ [Some {| msg_stream := STDIN; msg_cell_id := cid;
                             msg_data :=
                               truncation_warning
                               ++ slice_to (limit_in (context w)) prompt
                               ++ truncation_marker;
                             msg_mimetype := lit "text/plain" |}])
    /\ sys_stderr w' = sys_stderr w.
Proof.
  intros Hr Hin Hover.
  rewrite (readline_with_prompt_run getsizeof w cid n q prompt R rest Hr Hin).
  eexists. split; [reflexivity|].
  unfold stderr_msg. cbn [enqueued sys_stderr stream console_msg_queue].
  rewrite stderr_data_over by exact Hover. split; reflexivity.
Qed.

Lemma long_prompt_is_cut_like_stderr_at_ten :
  exists w',
    run (ThreadSafeStdin._readline_with_prompt getsizeof_cpython
           (PyStr hello_world))
        (world0 live_conn (Some 10) (Some a_cell) [lit "yes"])
    = (Ok (lit "yes"), w')
    /\ console_msg_queue (stream w')
       = Some ([] ++ [Some {| msg_stream := STDIN; msg_cell_id := a_cell;
                              msg_data :=
                                truncation_warning
                                ++ slice_to
                                     (limit_in
                                        (context
                                           (world0 live_conn (Some 10)
                                              (Some a_cell) [lit "yes"])))
                                     hello_world
                                ++ truncation_marker;
                              msg_mimetype := lit "text/plain" |}])
    /\ sys_stderr w'
       = sys_stderr (world0 live_conn (Some 10) (Some a_cell) [lit "yes"]).
Proof.
  apply (long_prompt_is_cut_like_stderr getsizeof_cpython
           (world0 live_conn (Some 10) (Some a_cell) [lit "yes"]) a_cell 0 []
           hello_world (lit "yes") []).
  - apply world0_ready.
  - reflexivity.
  - reflexivity.
Defined.

Lemma length_split (sep : N) (s : list N) :
  length (split sep s) = S (length (filter (fun c => c = sep) s)).
Proof.
  induction s as [|c s IH]; [reflexivity|]. cbn [split].
  destruct (N.eqb_spec c sep) as [->|Hne].
  - rewrite filter_cons_True by done. cbn [length]. by rewrite IH.
  - rewrite filter_cons_False by done.
    destruct (split sep s) as [|p ps]; cbn [length] in *;
      [discriminate | exact IH].
Qed.

Lemma split_snoc_sep (sep : N) (s : list N) :
  split sep (s ++ [sep]) = split sep s ++ [[]].
Proof.
  induction s as [|c s IH]; cbn [app split].
  - by rewrite N.eqb_refl.
  - rewrite IH. destruct (c =? sep)%N; [reflexivity|].
    pose proof (split_nonempty sep s).
    destruct (split sep s) as [|p ps]; [done | reflexivity].
Qed.

(** X12: [readlines] returns one line more than the reply has newlines: never
    an empty list, one empty line for an empty reply, and a last empty
    line when the reply ends in a newline. *)
Theorem readlines_counts_the_newlines {P} `{PipeProtocol P}
    (getsizeof : str -> Z) (w : World P) (cid : CellId_t) (n : nat)
    (q : list (option ConsoleMsg)) (R : str) (rest : list str)
    (hint : option Z) :
  ready w cid n q ->
  input_queue (stream w) = R :: rest ->
  exists ls w',
    run (ThreadSafeStdin.readlines getsizeof hint) w = (Ok ls, w')
    /\ length ls = S (length (filter (fun c => c = 10%N) (R : list N)))
    /\ (R = [] -> ls = [[]])
    /\ (forall R0, R = R0 ++ [10%N] -> last ls = Some []).
Proof.
  intros Hr Hin. rewrite readlines_run. unfold ThreadSafeStdin.readline.
  rewrite (readline_with_prompt_run getsizeof w cid n q [] R rest Hr Hin).
  eexists _, _. split; [reflexivity|].
  split; [apply length_split|]. split; [intros ->; reflexivity|].
  intros R0 ->. rewrite split_snoc_sep. apply last_snoc.
Qed.

Lemma readlines_counts_the_newlines_of_a_b :
  exists ls w',
    run (ThreadSafeStdin.readlines getsizeof_cpython None) reply_world
    = (Ok ls, w')
    /\ length ls = S (length (filter (fun c => c = 10%N) (a_b : list N)))
    /\ (a_b = [] -> ls = [[]])
    /\ (forall R0, a_b = R0 ++ [10%N] -> last ls = Some []).
Proof.
  apply (readlines_counts_the_newlines getsizeof_cpython reply_world a_cell 0
           [] a_b [] None (world0_ready live_conn None a_cell _)).
  reflexivity.
Defined.

(** ** The watcher and its scope *)

Lemma redirect_watched_run (s : StandardStream)
    (body : Py Watcher.World unit) (w : Watcher.World) :
  is_watched s = true ->
  run (redirect s body) w
  = match (match run Watcher.start w with
           | (Ok _, s') => run body s'
           | (Raise e, s') => (Raise e, s')
           | (Block, s') => (Block, s')
           end) with
    | (Block, s') => (Block, s')
    | (r, s') =>
        match run Watcher.pause s' with
        | (Ok _, s'') => (r, s'')
        | (Raise e, s'') => (Raise e, s'')
        | (Block, s'') => (Block, s'')
        end
    end.
Proof. intros Hs. unfold redirect. rewrite Hs. reflexivity. Qed.


Lemma table_restored (t : gmap nat nat) (d fd0 f pw : nat) :
  t !! d = None -> t !! fd0 = Some f ->
  delete d (<[fd0 := f]> (<[fd0 := pw]> (<[d := f]> t))) = t.
Proof.
  intros Hd Hfd. apply map_eq. intros k.
  destruct (decide (k = d)) as [->|Hkd].
  - by rewrite lookup_delete_eq.
  - rewrite lookup_delete_ne by done.
    destruct (decide (k = fd0)) as [->|Hkf].
    + by rewrite lookup_insert_eq.
    + by rewrite !lookup_insert_ne.
Qed.

Lemma lowest_free_below (fuel n k : nat) (t : gmap nat nat) :
  (n <= k)%nat -> t !! k = None ->
  (Watcher.lowest_free fuel n t <= k)%nat.
Proof.
  revert n. induction fuel as [|fuel IH]; intros n Hle Hk; simpl; [lia|].
  destruct (t !! n) eqn:E; [|lia].
  apply IH; [|exact Hk].
  destruct (decide (n = k)) as [->|]; [congruence | lia].
Qed.

(** X13: A scope around a body that leaves the descriptors and the watcher
    alone leaks nothing: it ends as the body ended, and the descriptor
    table is, entry for entry, the table before the scope. *)
Theorem redirect_leaves_the_table_as_it_was (s : StandardStream)
    (body : Py Watcher.World unit) (w : Watcher.World) (f pw : nat) :
  is_watched s = true ->
  Watcher.fds w !! Watcher.fd (Watcher._watcher w) = Some f ->
  Watcher.fds w !! Watcher.write_fd (Watcher._watcher w) = Some pw ->
  fst (run body (snd (run Watcher.start w))) <> Block ->
  Watcher.fds (snd (run body (snd (run Watcher.start w))))
  = Watcher.fds (snd (run Watcher.start w)) ->
  Watcher._watcher (snd (run body (snd (run Watcher.start w))))
  = Watcher._watcher (snd (run Watcher.start w)) ->
  exists w',
    run (redirect s body) w
    = (fst (run body (snd (run Watcher.start w))), w')
    /\ Watcher.fds w' = Watcher.fds w
    /\ Watcher._fileno w' = None.
Proof.
  intros Hs Hfd Hwr.
  pose proof (start_run w f pw Hfd Hwr) as Hstart. cbv zeta in Hstart.
  pose proof (os_dup_fresh (Watcher.fds w)) as Hfresh.
  set (d := Watcher.lowest_free _ _ _) in *.
  rewrite (redirect_watched_run s body w Hs), Hstart. cbn [snd].
  set (w1 := {| Watcher.fds := _ |}) in *.
  destruct (run body w1) as [r w2] eqn:Hbody. cbn [fst snd].
  intros Hnb Hfds Hw.
  assert (Hpause : run Watcher.pause w2
                   = (Ok tt,
                      {| Watcher.fds :=
                           delete d (<[Watcher.fd (Watcher._watcher w2) := f]>
                                       (Watcher.fds w2));
                         Watcher._watcher := Watcher._watcher w2;
                         Watcher._fileno := None |})).
  { apply pause_run; [by rewrite Hw|].
    rewrite Hfds. unfold w1. cbn [Watcher.fds].
    rewrite lookup_insert_ne, lookup_insert_eq; [done|].
    intros Heq. rewrite <- Heq, Hfd in Hfresh. discriminate. }
  assert (Hout : r <> Block) by exact Hnb. clear Hnb.
  destruct r as [[]|e|]; [| |done];
    (eexists; split; [rewrite Hpause; reflexivity|];
     cbn [Watcher.fds Watcher._fileno]; split; [|reflexivity];
     rewrite Hw, Hfds; unfold w1;
     cbn [Watcher.fds Watcher._watcher Watcher.fd];
     by apply table_restored).
Qed.

Lemma redirect_around_a_quiet_failure :
  exists w',
    run (redirect IsThreadSafeStderr (raise ValueError)) a_watched_world
    = (fst (run (raise ValueError : Py Watcher.World unit)
              (snd (run Watcher.start a_watched_world))), w')
    /\ Watcher.fds w' = Watcher.fds a_watched_world
    /\ Watcher._fileno w' = None.
Proof.
  apply (redirect_leaves_the_table_as_it_was IsThreadSafeStderr
           (raise ValueError) a_watched_world 101 201); try reflexivity.
  vm_compute. discriminate.
Defined.

(** X14: Inside the scope the stream has a [fileno]: a descriptor of its own
    for the file the stream stood for, while the stream's usual descriptor
    is on the pipe.  Once [pause] has run, [fileno] is unsupported
    again. *)
Theorem fileno_is_the_saved_descriptor (w : Watcher.World) (f pw : nat) :
  Watcher.fds w !! Watcher.fd (Watcher._watcher w) = Some f ->
  Watcher.fds w !! Watcher.write_fd (Watcher._watcher w) = Some pw ->
  exists d,
    StandardStreamObject.fileno (snd (run Watcher.start w))
    = StandardStreamObject.Fileno d
    /\ d <> Watcher.fd (Watcher._watcher w)
    /\ Watcher.fds w !! d = None
    /\ Watcher.fds (snd (run Watcher.start w)) !! d = Some f
    /\ Watcher.fds (snd (run Watcher.start w))
       !! Watcher.fd (Watcher._watcher w) = Some pw
    /\ StandardStreamObject.fileno
         (snd (run (Watcher.start;; Watcher.pause) w))
       = StandardStreamObject.UnsupportedOperation.
Proof.
  intros Hfd Hwr.
  pose proof (start_run w f pw Hfd Hwr) as Hstart. cbv zeta in Hstart.
  pose proof (os_dup_fresh (Watcher.fds w)) as Hfresh.
  set (d := Watcher.lowest_free _ _ _) in *.
  assert (Hne : d <> Watcher.fd (Watcher._watcher w)).
  { intros Heq. rewrite Heq, Hfd in Hfresh. discriminate. }
  rewrite run_bind, Hstart. cbn [snd].
  exists d. split; [reflexivity|]. split; [exact Hne|].
  split; [exact Hfresh|]. cbn [Watcher.fds].
  split; [by rewrite lookup_insert_ne, lookup_insert_eq|].
  split; [by rewrite lookup_insert_eq|].
  erewrite pause_run; [reflexivity | reflexivity |].
  cbn [Watcher.fds]. by rewrite lookup_insert_ne, lookup_insert_eq.
Qed.

Lemma fileno_of_a_watched_stdout :
  exists d,
    StandardStreamObject.fileno (snd (run Watcher.start a_watched_world))
    = StandardStreamObject.Fileno d
    /\ d <> Watcher.fd (Watcher._watcher a_watched_world)
    /\ Watcher.fds a_watched_world !! d = None
    /\ Watcher.fds (snd (run Watcher.start a_watched_world)) !! d
       = Some 101%nat
    /\ Watcher.fds (snd (run Watcher.start a_watched_world))
       !! Watcher.fd (Watcher._watcher a_watched_world) = Some 201%nat
    /\ StandardStreamObject.fileno
         (snd (run (Watcher.start;; Watcher.pause) a_watched_world))
       = StandardStreamObject.UnsupportedOperation.
Proof.
  apply (fileno_is_the_saved_descriptor a_watched_world 101 201);
    reflexivity.
Defined.

(** X15: [Watcher.stop] on a watcher whose pipe ends are open closes exactly
    those two descriptors and sets the exit flag.  It cannot be repeated:
    a second [stop] raises [OSError] at its first [close] and changes
    nothing. *)
Theorem watcher_stop_closes_the_pipe_once (w : Watcher.World) (pr pw : nat) :
  Watcher.fds w !! Watcher.read_fd (Watcher._watcher w) = Some pr ->
  Watcher.fds w !! Watcher.write_fd (Watcher._watcher w) = Some pw ->
  Watcher.read_fd (Watcher._watcher w)
  <> Watcher.write_fd (Watcher._watcher w) ->
  exists w',
    run Watcher.stop w = (Ok tt, w')
    /\ Watcher.fds w'
       = delete (Watcher.read_fd (Watcher._watcher w))
           (delete (Watcher.write_fd (Watcher._watcher w)) (Watcher.fds w))
    /\ Watcher._should_exit (Watcher._watcher w') = true
    /\ Watcher._fileno w' = Watcher._fileno w
    /\ run Watcher.stop w' = (Raise OSError, w')
    /\ run StandardStreamObject.stop w' = (Raise OSError, w').
Proof.
  intros Hr Hw Hne.
  destruct w as [t [fd0 rfd wfd dup ex] fno]; cbn in Hr, Hw, Hne.
  eexists. split.
  - unfold Watcher.stop. cbn. rewrite Hw. cbn.
    rewrite lookup_delete_ne by done. rewrite Hr. reflexivity.
  - cbn [Watcher.fds Watcher._watcher Watcher._should_exit Watcher._fileno
         Watcher.read_fd Watcher.write_fd].
    repeat split; unfold StandardStreamObject.stop, Watcher.stop; cbn;
      rewrite lookup_delete_ne by done; rewrite lookup_delete_eq;
      reflexivity.
Qed.

Lemma watcher_stop_on_a_watched_world :
  exists w',
    run Watcher.stop a_watched_world = (Ok tt, w')
    /\ Watcher.fds w'
       = delete (Watcher.read_fd (Watcher._watcher a_watched_world))
           (delete (Watcher.write_fd (Watcher._watcher a_watched_world))
              (Watcher.fds a_watched_world))
    /\ Watcher._should_exit (Watcher._watcher w') = true
    /\ Watcher._fileno w' = Watcher._fileno a_watched_world
    /\ run Watcher.stop w' = (Raise OSError, w')
    /\ run StandardStreamObject.stop w' = (Raise OSError, w').
Proof.
  apply (watcher_stop_closes_the_pipe_once a_watched_world 200 201).
  - reflexivity.
  - reflexivity.
  - vm_compute. discriminate.
Defined.

(** X16: A scope opened on a watcher that has been stopped never runs its
    body: with the pipe closed (and its read end numbered below its write
    end, as [os.pipe] numbers them), [start] raises [OSError] after it has
    duplicated the descriptor, [pause] undoes that, and the scope raises
    [OSError] with the descriptor table as it was. *)
Theorem redirect_after_stop_raises_and_cleans_up (s : StandardStream)
    (body : Py Watcher.World unit) (w : Watcher.World) (f : nat) :
  is_watched s = true ->
  Watcher.fds w !! Watcher.fd (Watcher._watcher w) = Some f ->
  Watcher.fds w !! Watcher.read_fd (Watcher._watcher w) = None ->
  Watcher.fds w !! Watcher.write_fd (Watcher._watcher w) = None ->
  (Watcher.read_fd (Watcher._watcher w)
   < Watcher.write_fd (Watcher._watcher w))%nat ->
  exists w',
    run (redirect s body) w = (Raise OSError, w')
    /\ Watcher.fds w' = Watcher.fds w
    /\ Watcher._fileno w' = None.
Proof.
  intros Hs Hfd Hrd Hwr Hlt.
  pose proof (os_dup_fresh (Watcher.fds w)) as Hfresh.
  pose proof (lowest_free_below (S (size (Watcher.fds w))) 0 _ _
                (Nat.le_0_l _) Hrd) as Hlow.
  set (d := Watcher.lowest_free _ _ _) in *.
  rewrite (redirect_watched_run s body w Hs).
  destruct w as [t [fd0 rfd wfd dup ex] fno];
    cbn [Watcher.fds Watcher._watcher Watcher.fd Watcher.read_fd
         Watcher.write_fd] in *.
  assert (Hstart :
    run Watcher.start
      {| Watcher.fds := t;
         Watcher._watcher :=
           {| Watcher.fd := fd0; Watcher.read_fd := rfd;
              Watcher.write_fd := wfd; Watcher.fd_dup := dup;
              Watcher._should_exit := ex |};
         Watcher._fileno := fno |}
    = (Raise OSError,
       {| Watcher.fds := <[d := f]> t;
          Watcher._watcher :=
            {| Watcher.fd := fd0; Watcher.read_fd := rfd;
               Watcher.write_fd := wfd; Watcher.fd_dup := Some d;
               Watcher._should_exit := ex |};
          Watcher._fileno := Some d |})).
  { unfold Watcher.start. cbn -[Watcher.lowest_free]. rewrite Hfd.
    cbn -[Watcher.lowest_free]. fold d.
    rewrite lookup_insert_ne by lia. rewrite Hwr. reflexivity. }
  rewrite Hstart.
  erewrite pause_run; [|reflexivity|cbn; apply lookup_insert_eq].
  eexists. split; [reflexivity|]. cbn. split; [|reflexivity].
  apply map_eq. intros k.
  destruct (decide (k = d)) as [->|Hkd].
  - by rewrite lookup_delete_eq.
  - rewrite lookup_delete_ne by done.
    destruct (decide (k = fd0)) as [->|Hkf].
    + by rewrite lookup_insert_eq.
    + by rewrite !lookup_insert_ne.
Qed.

Lemma redirect_after_stop_on_a_stopped_world :
  exists w',
    run (redirect IsThreadSafeStdout failing_body) a_stopped_world
    = (Raise OSError, w')
    /\ Watcher.fds w' = Watcher.fds a_stopped_world
    /\ Watcher._fileno w' = None.
Proof.
  apply (redirect_after_stop_raises_and_cleans_up IsThreadSafeStdout
           failing_body a_stopped_world 101); try reflexivity.
  vm_compute. lia.
Defined.

(** X17: A scope opened on a stream whose descriptor is closed, with a watcher
    that was never started, raises [AttributeError]: the [OSError] of
    [start] is replaced by the failure of [pause] to find the saved
    descriptor.  The body is not run and nothing changes. *)
Theorem redirect_on_a_closed_descriptor (s : StandardStream)
    (body : Py Watcher.World unit) (w : Watcher.World) :
  is_watched s = true ->
  Watcher.fds w !! Watcher.fd (Watcher._watcher w) = None ->
  Watcher.fd_dup (Watcher._watcher w) = None ->
  run Watcher.start w = (Raise OSError, w)
  /\ run (redirect s body) w = (Raise AttributeError, w).
Proof.
  intros Hs Hfd Hdup.
  assert (Hstart : run Watcher.start w = (Raise OSError, w)).
  { unfold Watcher.start. cbn. rewrite Hfd. reflexivity. }
  split; [exact Hstart|].
  rewrite (redirect_watched_run s body w Hs), Hstart.
  unfold Watcher.pause. cbn. rewrite Hdup. reflexivity.
Qed.

Lemma redirect_on_a_closed_stdout :
  run Watcher.start a_closed_world = (Raise OSError, a_closed_world)
  /\ run (redirect IsThreadSafeStdout failing_body) a_closed_world
     = (Raise AttributeError, a_closed_world).
Proof.
  apply (redirect_on_a_closed_descriptor IsThreadSafeStdout failing_body
           a_closed_world); reflexivity.
Defined.

(** For a stream that is not one of the two watched kinds the scope is
    the body and nothing more, however the body ends. *)
Theorem redirect_of_another_stream_is_the_body
    (body : Py Watcher.World unit) (w : Watcher.World) :
  run (redirect IsOther body) w = run body w.
Proof.
  unfold redirect. cbn.
  destruct (run body w) as [[[]|e|] w']; reflexivity.
Qed.

Lemma redirect_quiet_run (s : StandardStream) (body : Py Watcher.World unit)
    (r : outcome unit) (w : Watcher.World) (f pw : nat) :
  is_watched s = true ->
  Watcher.fds w !! Watcher.fd (Watcher._watcher w) = Some f ->
  Watcher.fds w !! Watcher.write_fd (Watcher._watcher w) = Some pw ->
  (forall w0, run body w0 = (r, w0)) ->
  r <> Block ->
  let d := Watcher.lowest_free (S (size (Watcher.fds w))) 0 (Watcher.fds w) in
  run (redirect s body) w
  = (r,
     {| Watcher.fds :=
          delete d
            (<[Watcher.fd (Watcher._watcher w) := f]>
               (<[Watcher.fd (Watcher._watcher w) := pw]>
                  (<[d := f]> (Watcher.fds w))));
        Watcher._watcher :=
          {| Watcher.fd := Watcher.fd (Watcher._watcher w);
             Watcher.read_fd := Watcher.read_fd (Watcher._watcher w);
             Watcher.write_fd := Watcher.write_fd (Watcher._watcher w);
             Watcher.fd_dup := Some d;
             Watcher._should_exit :=
               Watcher._should_exit (Watcher._watcher w) |};
        Watcher._fileno := None |}).
Proof.
  intros Hs Hfd Hwr Hbody Hr d.
  pose proof (start_run w f pw Hfd Hwr) as Hstart. cbv zeta in Hstart.
  pose proof (os_dup_fresh (Watcher.fds w)) as Hfresh.
  fold d in Hstart, Hfresh.
  assert (Hne : Watcher.fd (Watcher._watcher w) <> d).
  { intros Heq. rewrite <- Heq, Hfd in Hfresh. discriminate. }
  rewrite (redirect_watched_run s body w Hs), Hstart, Hbody.
  erewrite pause_run; [|reflexivity|].
  - destruct r as [[]|e|]; [reflexivity | reflexivity | done].
  - cbn [Watcher.fds]. by rewrite lookup_insert_ne, lookup_insert_eq.
Qed.



(** ** The forwarding loop, with a sink that keeps what it is given *)

Lemma chunk_size_eq : Forward.chunk_size = 1024%nat.
Proof. reflexivity. Qed.

Lemma chunk_nonempty (l : list N) :
  l <> [] -> take Forward.chunk_size l <> [].
Proof.
  destruct l as [|b l]; [done|]. intros _. rewrite chunk_size_eq. discriminate.
Qed.

Lemma utf8_decode_ascii (bs : list N) :
  Forall (fun b => (b < 128)%N) bs -> Forward.utf8_decode bs = Some bs.
Proof.
  induction 1 as [|b bs Hb _ IH]; [reflexivity|]. cbn [Forward.utf8_decode].
  destruct (N.ltb_spec b 128) as [_|]; [|lia]. by rewrite IH.
Qed.

Lemma utf8_decode_length_fuel (k : nat) :
  forall (bs : list N) (text : str),
    (length bs <= k)%nat ->
    Forward.utf8_decode bs = Some text -> (length text <= length bs)%nat.
Proof.
  induction k as [|k IH]; intros bs text Hk Hdec.
  - destruct bs; [|simpl in Hk; lia]. by injection Hdec as <-.
  - destruct bs as [|b0 r0]; [by injection Hdec as <-|].
    cbn [Forward.utf8_decode] in Hdec. cbn [length] in Hk |- *.
    repeat (case_match; try discriminate);
      match type of Hdec with
      | cons _ <$> Forward.utf8_decode ?r = Some _ =>
          destruct (Forward.utf8_decode r) as [t|] eqn:E; [|discriminate];
          injection Hdec as <-; apply IH in E; cbn [length] in *; lia
      end.
Qed.

Lemma utf8_decode_length (bs : list N) (text : str) :
  Forward.utf8_decode bs = Some text -> (length text <= length bs)%nat.
Proof. by apply (utf8_decode_length_fuel (length bs)). Qed.

(** X19: Output that is plain ASCII comes through whole and in order.  When
    every turn brings some bytes below 128, with the flag unset and the
    read working, the loop goes through all the turns, and the texts it
    has written to the sink, followed by what is still in the pipe, are
    the bytes that were in the pipe and those that arrived, in order. *)
Theorem forwarding_keeps_ascii_output_whole (turns : list Forward.Turn)
    (s : Forward.State (list str)) :
  Forall ascii_turn turns ->
  Forall (fun b => (b < 128)%N) (Forward.in_pipe s) ->
  exists s',
    run (Forward._forward_os_stream Forward.keep_write turns) s
    = (Ok Forward.Running, s')
    /\ concat (Forward.sink s') ++ Forward.in_pipe s'
       = concat (Forward.sink s) ++ Forward.in_pipe s
         ++ concat (Forward.arrived <$> turns).
Proof.
  revert s. induction turns as [|t turns IH]; intros s Hturns Hpipe.
  - exists s. split; [reflexivity|]. cbn. by rewrite app_nil_r.
  - apply Forall_cons in Hturns as [(Hflag & Herr & Hne & Hasc) Hturns].
    rewrite forward_turn, Hflag, Herr.
    assert (Hav : Forall (fun b => (b < 128)%N)
                    (Forward.in_pipe s ++ Forward.arrived t))
      by (by apply Forall_app).
    assert (Hne' : Forward.in_pipe s ++ Forward.arrived t <> []).
    { intros [_ Habs]%app_eq_nil. done. }
    set (avail := Forward.in_pipe s ++ Forward.arrived t) in *.
    pose proof (chunk_nonempty avail Hne') as Hchunk.
    rewrite (utf8_decode_ascii (take Forward.chunk_size avail))
      by (by apply Forall_take).
    destruct (take Forward.chunk_size avail) as [|b chunk] eqn:Hc; [done|].
    cbn [run Forward.keep_write].
    destruct (IH {| Forward.in_pipe := drop Forward.chunk_size avail;
                    Forward.sink := Forward.sink s ++ [b :: chunk] |})
      as (s' & Hrun & Hcat); [exact Hturns | by apply Forall_drop |].
    exists s'. split; [exact Hrun|]. rewrite Hcat.
    cbn [Forward.sink Forward.in_pipe fmap list_fmap concat].
    rewrite concat_app. cbn [concat]. rewrite app_nil_r, <- !app_assoc.
    f_equal. rewrite !app_assoc. f_equal.
    rewrite <- Hc. apply take_drop.
Qed.

Lemma forwarding_keeps_two_ascii_turns_whole :
  exists s',
    run (Forward._forward_os_stream Forward.keep_write
           [Forward.quiet [104; 105]%N; Forward.quiet [10]%N])
        Forward.nothing_yet = (Ok Forward.Running, s')
    /\ concat (Forward.sink s') ++ Forward.in_pipe s'
       = concat (Forward.sink Forward.nothing_yet)
         ++ Forward.in_pipe Forward.nothing_yet
         ++ concat (Forward.arrived
                    <$> [Forward.quiet [104; 105]%N; Forward.quiet [10]%N]).
Proof.
  apply (forwarding_keeps_ascii_output_whole
           [Forward.quiet [104; 105]%N; Forward.quiet [10]%N]
           Forward.nothing_yet).
  - repeat constructor; (discriminate || lia).
  - constructor.
Defined.

(** X20: However the function is left, and whatever the bytes, it has written
    to the sink at most one text per turn, each of at most 1024
    characters, behind what the sink held. *)
Theorem forwarded_texts_are_chunks (turns : list Forward.Turn)
    (s : Forward.State (list str)) :
  exists new,
    Forward.sink
      (snd (run (Forward._forward_os_stream Forward.keep_write turns) s))
    = Forward.sink s ++ new
    /\ Forall (fun text : str => (length text <= 1024)%nat) new
    /\ (length new <= length turns)%nat.
Proof.
  revert s. induction turns as [|t turns IH]; intros s.
  - exists []. cbn. by rewrite app_nil_r.
  - rewrite forward_turn.
    assert (Hstay : exists new : list str,
              Forward.sink s = Forward.sink s ++ new
              /\ Forall (fun text : str => (length text <= 1024)%nat) new
              /\ (length new <= length (t :: turns))%nat).
    { exists []. rewrite app_nil_r. cbn. repeat split; [constructor | lia]. }
    destruct (Forward.exit_is_set t); [exact Hstay|].
    destruct (Forward.read_error t); [exact Hstay|].
    destruct (take Forward.chunk_size _) as [|b chunk] eqn:Hc; [exact Hstay|].
    destruct (Forward.utf8_decode (b :: chunk)) as [text|] eqn:Hdec;
      [|exact Hstay].
    cbn [run Forward.keep_write].
    destruct (IH {| Forward.in_pipe :=
                      drop Forward.chunk_size
                        (Forward.in_pipe s ++ Forward.arrived t);
                    Forward.sink := Forward.sink s ++ [text] |})
      as (new & Hsink & Hshort & Hlen).
    exists (text :: new). rewrite Hsink. cbn [Forward.sink length].
    rewrite <- app_assoc. split; [reflexivity|]. split; [|lia].
    constructor; [|exact Hshort].
    apply utf8_decode_length in Hdec. rewrite <- Hc in Hdec.
    rewrite length_take, chunk_size_eq in Hdec. lia.
Qed.

(** ** The life of a watcher *)

Lemma watcher_stop_run (w : Watcher.World) (pr pw : nat) :
  Watcher.fds w !! Watcher.read_fd (Watcher._watcher w) = Some pr ->
  Watcher.fds w !! Watcher.write_fd (Watcher._watcher w) = Some pw ->
  Watcher.read_fd (Watcher._watcher w)
  <> Watcher.write_fd (Watcher._watcher w) ->
  run Watcher.stop w
  = (Ok tt,
     {| Watcher.fds :=
          delete (Watcher.read_fd (Watcher._watcher w))
            (delete (Watcher.write_fd (Watcher._watcher w)) (Watcher.fds w));
        Watcher._watcher :=
          {| Watcher.fd := Watcher.fd (Watcher._watcher w);
             Watcher.read_fd := Watcher.read_fd (Watcher._watcher w);
             Watcher.write_fd := Watcher.write_fd (Watcher._watcher w);
             Watcher.fd_dup := Watcher.fd_dup (Watcher._watcher w);
             Watcher._should_exit := true |};
        Watcher._fileno := Watcher._fileno w |}).
Proof.
  intros Hr Hw Hne.
  destruct w as [t [fd0 rfd wfd dup ex] fno]; cbn in Hr, Hw, Hne.
  unfold Watcher.stop. cbn. rewrite Hw. cbn.
  rewrite lookup_delete_ne by done. rewrite Hr. reflexivity.
Qed.

(** X21: A watcher leaves no trace in the descriptor table.  Built on an open
    descriptor, it gets a pipe on two fresh descriptors, the read end
    numbered below the write end; and after a scope around a body that
    returns and leaves the descriptors alone, followed by [stop], the
    table is, entry for entry, the table there was before the watcher was
    built, with the exit flag set. *)
Theorem watcher_life_leaves_the_table_as_it_was (s : StandardStream)
    (body : Py Watcher.World unit) (w : Watcher.World)
    (original_fd f pr pw : nat) :
  is_watched s = true ->
  Watcher.fds w !! original_fd = Some f ->
  (forall w0, run body w0 = (Ok tt, w0)) ->
  exists w1 w',
    run (Watcher.init original_fd pr pw) w = (Ok tt, w1)
    /\ Watcher.fds w !! Watcher.read_fd (Watcher._watcher w1) = None
    /\ Watcher.fds w !! Watcher.write_fd (Watcher._watcher w1) = None
    /\ (Watcher.read_fd (Watcher._watcher w1)
        < Watcher.write_fd (Watcher._watcher w1))%nat
    /\ run (Watcher.init original_fd pr pw;; redirect s body;; Watcher.stop)
           w = (Ok tt, w')
    /\ Watcher.fds w' = Watcher.fds w
    /\ Watcher._should_exit (Watcher._watcher w') = true.
Proof.
  intros Hs Hfd Hbody.
  destruct w as [t wt fno]; cbn [Watcher.fds] in *.
  pose proof (os_dup_fresh t) as Hr.
  set (r := Watcher.lowest_free (S (size t)) 0 t) in *.
  pose proof (os_dup_fresh (<[r := pr]> t)) as Hw.
  set (wr := Watcher.lowest_free _ _ (<[r := pr]> t)) in *.
  assert (Hne : r <> wr).
  { intros Heq. rewrite <- Heq, lookup_insert_eq in Hw. discriminate. }
  rewrite lookup_insert_ne in Hw by exact Hne.
  assert (Hlt : (r < wr)%nat).
  { pose proof (lowest_free_below (S (size t)) 0 wr t (Nat.le_0_l _) Hw).
    fold r in H. lia. }
  assert (Hfr : original_fd <> r) by (intros ->; congruence).
  assert (Hfw : original_fd <> wr) by (intros ->; congruence).
  set (w1 := {| Watcher.fds := <[wr := pw]> (<[r := pr]> t);
                Watcher._watcher :=
                  {| Watcher.fd := original_fd; Watcher.read_fd := r;
                     Watcher.write_fd := wr; Watcher.fd_dup := None;
                     Watcher._should_exit := false |};
                Watcher._fileno := fno |}).
  assert (Hinit : run (Watcher.init original_fd pr pw)
                    {| Watcher.fds := t; Watcher._watcher := wt;
                       Watcher._fileno := fno |} = (Ok tt, w1))
    by reflexivity.
  assert (Hfd1 : Watcher.fds w1 !! Watcher.fd (Watcher._watcher w1) = Some f).
  { unfold w1. cbn [Watcher.fds Watcher._watcher Watcher.fd].
    by rewrite !lookup_insert_ne. }
  assert (Hwr1 : Watcher.fds w1 !! Watcher.write_fd (Watcher._watcher w1)
                 = Some pw) by apply lookup_insert_eq.
  pose proof (redirect_quiet_run s body (Ok tt) w1 f pw Hs Hfd1 Hwr1 Hbody
                ltac:(discriminate)) as Hscope. cbv zeta in Hscope.
  pose proof (os_dup_fresh (Watcher.fds w1)) as Hd.
  set (d := Watcher.lowest_free _ _ (Watcher.fds w1)) in *.
  rewrite (table_restored (Watcher.fds w1) d _ f pw Hd Hfd1) in Hscope.
  exists w1. eexists. split; [exact Hinit|].
  split; [exact Hr|]. split; [exact Hw|]. split; [exact Hlt|].
  split.
  - rewrite run_bind, Hinit, run_bind, Hscope.
    erewrite (watcher_stop_run _ pr pw); [reflexivity|..].
    + unfold w1. cbn [Watcher.fds Watcher._watcher Watcher.read_fd].
      by rewrite lookup_insert_ne, lookup_insert_eq.
    + exact Hwr1.
    + exact Hne.
  - cbn [Watcher.fds Watcher._watcher Watcher._should_exit].
    split; [|reflexivity].
    unfold w1. cbn [Watcher.fds Watcher._watcher Watcher.read_fd
                    Watcher.write_fd].
    apply map_eq. intros k.
    destruct (decide (k = r)) as [->|Hkr]; [by rewrite lookup_delete_eq|].
    rewrite lookup_delete_ne by done.
    destruct (decide (k = wr)) as [->|Hkw]; [by rewrite lookup_delete_eq|].
    rewrite lookup_delete_ne by done. by rewrite !lookup_insert_ne.
Qed.

Lemma watcher_life_on_the_terminal :
  exists w1 w',
    run (Watcher.init 1 200 201) a_bare_world = (Ok tt, w1)
    /\ Watcher.fds a_bare_world !! Watcher.read_fd (Watcher._watcher w1)
       = None
    /\ Watcher.fds a_bare_world !! Watcher.write_fd (Watcher._watcher w1)
       = None
    /\ (Watcher.read_fd (Watcher._watcher w1)
        < Watcher.write_fd (Watcher._watcher w1))%nat
    /\ run (Watcher.init 1 200 201;; redirect IsThreadSafeStdout (mret tt);;
            Watcher.stop) a_bare_world = (Ok tt, w')
    /\ Watcher.fds w' = Watcher.fds a_bare_world
    /\ Watcher._should_exit (Watcher._watcher w') = true.
Proof.
  apply (watcher_life_leaves_the_table_as_it_was IsThreadSafeStdout (mret tt)
           a_bare_world 1 101 200 201); reflexivity.
Defined.
